(** * serverless-slack-bot: the webhook handler of [bot.js]

    A shallow embedding of [bot.js] and the properties of its handler
    [run].  JavaScript values are an inductive type, exceptions and
    rejected promises are an explicit completion, and the two remote
    services (CloudFront and Slack) are functions of an outside world
    whose calls are logged in the order they are made. *)

From Stdlib Require Import String Ascii List Bool ZArith NArith Lia.
From Stdlib Require Import DecimalString DecimalN DecimalPos.
From Stdlib Require Import Floats.PrimFloat.
Import ListNotations.
Local Open Scope string_scope.

(** ** The JavaScript values the handler meets *)

Module Js.

(** What [JSON.parse] can build, plus [undefined] (the value of a missing
    property).  Numbers are IEEE doubles.  A string is its sequence of
    bytes: the handler only compares strings, cuts them at the space
    character and concatenates them.  An object is the list of its own
    properties; a property read takes the first binding of a key. *)
#[local] Set Warnings "-register-all".
Inductive value : Type :=
| VUndefined
| VNull
| VBool (b : bool)
| VNum (x : float)
| VStr (s : string)
| VArr (items : list value)
| VObj (props : list (string * value)).

(** What [JSON.stringify] makes of a value: a text; [undefined] (for
    undefined, a function or a symbol); or nothing, when it throws (a
    circular structure, a BigInt, a throwing toJSON). *)
Inductive json_image : Type :=
| JsonText (s : string)
| JsonUndefined
| JsonThrows.

(** The rejection value of a remote call: only what [JSON.stringify] makes
    of it is ever observed by the handler. *)
Record ExternalError : Type := { stringified : json_image }.

(** What can be thrown in [bot.js]. *)
Inductive thrown : Type :=
| SyntaxError                       (* JSON.parse on malformed text *)
| TypeError                         (* property read on null/undefined, call of a non-function, [in] on a primitive *)
| VerificationFailed                (* throw 'Verification failed' *)
| Rejection (err : ExternalError).  (* a rejected promise of CloudFront or Slack *)

Inductive completion (A : Type) : Type :=
| Normal (a : A)
| Throw (e : thrown).
Arguments Normal {A} a.
Arguments Throw {A} e.

Fixpoint own_property (k : string) (props : list (string * value)) : option value :=
  match props with
  | [] => None
  | (k', v) :: rest => if String.eqb k k' then Some v else own_property k rest
  end.

(** [o.k] for the property names [bot.js] reads (type, token, challenge,
    event, bot_id, text, channel): none of them is inherited from a
    prototype, so primitives and arrays give [undefined]. *)
Definition get (o : value) (k : string) : completion value :=
  match o with
  | VUndefined | VNull => Throw TypeError
  | VObj props =>
      Normal (match own_property k props with Some v => v | None => VUndefined end)
  | VBool _ | VNum _ | VStr _ | VArr _ => Normal VUndefined
  end.

(** [k in o] for a key that is neither an array index, nor [length], nor
    inherited from [Object.prototype]. *)
Definition has_property (k : string) (o : value) : completion bool :=
  match o with
  | VObj props =>
      Normal (match own_property k props with Some _ => true | None => false end)
  | VArr _ => Normal false
  | VUndefined | VNull | VBool _ | VNum _ | VStr _ => Throw TypeError
  end.

(** ToBoolean. *)
Definition truthy (v : value) : bool :=
  match v with
  | VUndefined | VNull => false
  | VBool b => b
  | VNum x => negb (PrimFloat.eqb x 0%float || negb (PrimFloat.eqb x x))
  | VStr s => negb (String.eqb s "")
  | VArr _ | VObj _ => true
  end.

(** [v === s] for a string [s]. *)
Definition strict_equals_string (v : value) (s : string) : bool :=
  match v with
  | VStr t => String.eqb t s
  | _ => false
  end.

(** [v === process.env.X]: an environment variable is a string, or
    [undefined] when it is not set. *)
Definition strict_equals_env (v : value) (e : option string) : bool :=
  match v, e with
  | VUndefined, None => true
  | VStr t, Some s => String.eqb t s
  | _, _ => false
  end.

(** A template literal's rendering of [process.env.X]. *)
Definition env_to_string (e : option string) : string :=
  match e with
  | Some s => s
  | None => "undefined"
  end.

(** The pieces of [s] between the occurrences of the character [sep]. *)
Fixpoint pieces (sep : ascii) (s : string) : list string :=
  match s with
  | EmptyString => [EmptyString]
  | String c rest =>
      if Ascii.eqb c sep then EmptyString :: pieces sep rest
      else match pieces sep rest with
           | piece :: more => String c piece :: more
           | [] => [String c EmptyString]
           end
  end.

(** [s.split(sep, limit)] for a one-character separator: the first
    [limit] pieces. *)
Definition String_split (sep : ascii) (limit : nat) (s : string) : list string :=
  firstn limit (pieces sep s).

(** [a.pop()]: the last element, [undefined] on an empty array. *)
Definition Array_pop (a : list string) : value :=
  last (map VStr a) VUndefined.

(** [n + ''] for a non-negative integer number. *)
Definition number_to_string (n : N) : string :=
  NilZero.string_of_uint (N.to_uint n).

(** Whether the character [c] occurs in [s]. *)
Fixpoint has_char (c : ascii) (s : string) : bool :=
  match s with
  | EmptyString => false
  | String a rest => Ascii.eqb a c || has_char c rest
  end.

(** [sub] occurs in [s]. *)
Definition occurs_in (sub s : string) : Prop :=
  exists before after, s = before ++ sub ++ after.

Definition double_quote : string := String "034"%char EmptyString.

End Js.
Export Js.

(** ** The handler and its helpers *)

Module Bot.

(** [data], the event the platform hands to [run]: the raw request body
    and the headers object. *)
Record Request : Type := { data_body : string; data_headers : value }.

(** The object [run] returns. *)
Record Response : Type := { statusCode : Z; body : value; headers : value }.

(** [process.env]: each variable is a string, or [None] when not set. *)
Record Env : Type := {
  VERIFICATION_TOKEN : option string;
  BOT_TOKEN : option string;
  BOT_NAME : option string;
  CDN_DISTRIBUTION : option string
}.

(** The parameters of [CloudFront.createInvalidation]. *)
Record Paths_t : Type := { Quantity : string; Items : list string }.
Record InvalidationBatch_t : Type := { CallerReference : string; Paths : Paths_t }.
Record InvalidationParams : Type := {
  DistributionId : option string;
  InvalidationBatch : InvalidationBatch_t
}.

(** What [createInvalidation] hands to its callback on success, as far as
    the handler reads it: [data.Invalidation.Id]. *)
Record Invalidation_t : Type := { Id : string }.
Record InvalidationData : Type := { Invalidation : Invalidation_t }.

(** The parameters of [Slack.chat.postMessage]. *)
Record PostMessageParams : Type := {
  token : option string;
  channel : value;
  text : string
}.

(** A call to a remote service. *)
Inductive Call : Type :=
| CreateInvalidation (params : InvalidationParams)
| PostMessage (params : PostMessageParams).

Section Handler.

(** The state of everything outside the process, and what the handler
    takes from it. *)
Variable Outside : Type.
Variable JSON_parse : string -> option value.
Variable env : Env.
Variable Date_now : Outside -> N.
Variable CloudFront_createInvalidation :
  InvalidationParams -> Outside -> (ExternalError + InvalidationData) * Outside.
Variable Slack_chat_postMessage :
  PostMessageParams -> Outside -> option ExternalError * Outside.

(** The outside together with the remote calls made so far, oldest first. *)
Record World : Type := { outside : Outside; calls : list Call }.

(** A statement or an awaited call: it reads and writes the local
    [response] of [run] and the world, and completes normally or throws. *)
Definition M (A : Type) : Type := Response -> World -> completion A * Response * World.

Definition ret {A} (a : A) : M A := fun r w => (Normal a, r, w).
Definition throw {A} (e : thrown) : M A := fun r w => (Throw e, r, w).
Definition bind {A B} (m : M A) (k : A -> M B) : M B :=
  fun r w =>
    match m r w with
    | (Normal a, r', w') => k a r' w'
    | (Throw e, r', w') => (Throw e, r', w')
    end.
Definition lift {A} (c : completion A) : M A :=
  match c with
  | Normal a => ret a
  | Throw e => throw e
  end.
Definition try_catch {A} (m : M A) (handler : thrown -> M A) : M A :=
  fun r w =>
    match m r w with
    | (Normal a, r', w') => (Normal a, r', w')
    | (Throw e, r', w') => handler e r' w'
    end.

Definition set_statusCode (c : Z) : M unit :=
  fun r w => (Normal tt, {| statusCode := c; body := body r; headers := headers r |}, w).
Definition set_body (b : value) : M unit :=
  fun r w => (Normal tt, {| statusCode := statusCode r; body := b; headers := headers r |}, w).

Notation "x <- m ;; k" := (bind m (fun x => k))
  (at level 61, m at next level, right associativity).
Notation "m ;; k" := (bind m (fun _ => k))
  (at level 61, right associativity).

(** *** [sendSlackMessage] (lines 105-115) *)

Definition sendSlackMessage (channel : value) (message : string) : M unit :=
  fun r w =>
    let params := {| token := BOT_TOKEN env; channel := channel; text := message |} in
    let '(reply, o) := Slack_chat_postMessage params (outside w) in
    let w' := {| outside := o; calls := calls w ++ [PostMessage params] |} in
    match reply with
    | None => (Normal tt, r, w')
    | Some err => (Throw (Rejection err), r, w')
    end.

(** *** [parseMessage] (lines 122-125)

    [message.split(' ', 2).pop()]: only a string has a [split] method; on
    [undefined] and [null] the property read throws, on any other value
    [message.split] is not a function. *)
Definition parseMessage (message : value) : completion value :=
  match message with
  | VStr s => Normal (Array_pop (String_split " "%char 2 s))
  | VUndefined | VNull => Throw TypeError
  | VBool _ | VNum _ | VArr _ | VObj _ => Throw TypeError
  end.

(** *** [invalidateDistribution] (lines 131-158) *)

Definition invalidation_params (o : Outside) : InvalidationParams :=
  {| DistributionId := CDN_DISTRIBUTION env;
     InvalidationBatch :=
       {| CallerReference := number_to_string (Date_now o);
          Paths := {| Quantity := "1"; Items := ["/*"] |} |} |}.

Definition invalidateDistribution : M InvalidationData :=
  fun r w =>
    let params := invalidation_params (outside w) in
    let '(reply, o) := CloudFront_createInvalidation params (outside w) in
    let w' := {| outside := o; calls := calls w ++ [CreateInvalidation params] |} in
    match reply with
    | inl err => (Throw (Rejection err), r, w')
    | inr data => (Normal data, r, w')
    end.

(** *** [handleMessage] (lines 75-97) *)

Definition invalidated_text (invalidationData : InvalidationData) : string :=
  "Sir/Madam, I've just invalidated the cache, this is the invalidation ID. *"
    ++ Id (Invalidation invalidationData) ++ "*".

Definition help_text : string :=
  "Sir/Madam, I don't understand what you need. Please use `@"
    ++ env_to_string (BOT_NAME env) ++ " invalidate_cdn` to clear the CDN cache.".

(** [case 'invalidate_cdn':] (lines 86-90). *)
Definition case_invalidate_cdn (message : value) : M unit :=
  invalidationData <- invalidateDistribution ;;
  channel <- lift (get message "channel") ;;
  sendSlackMessage channel (invalidated_text invalidationData).

(** [default:] (lines 91-94). *)
Definition case_default (message : value) : M unit :=
  channel <- lift (get message "channel") ;;
  sendSlackMessage channel help_text.

(** The [switch ( command )] of lines 84-95. *)
Definition dispatch (message command : value) : M unit :=
  if strict_equals_string command "invalidate_cdn" then case_invalidate_cdn message
  else case_default message.

Definition handleMessage (message : value) : M unit :=
  bot_id <- lift (get message "bot_id") ;;
  if negb (truthy bot_id) then
    text <- lift (get message "text") ;;
    command <- lift (parseMessage text) ;;
    dispatch message command
  else ret tt.

(** *** [verifyCall] (lines 59-68) *)

Definition verifyCall (data : value) : completion value :=
  match get data "token" with
  | Throw e => Throw e
  | Normal token =>
      if strict_equals_env token (VERIFICATION_TOKEN env) then get data "challenge"
      else Throw VerificationFailed
  end.

(** *** [run] (lines 12-53) *)

Definition default_headers : value := VObj [("X-Slack-No-Retry", VNum 1%float)].

Definition default_response : Response :=
  {| statusCode := 200; body := VObj []; headers := default_headers |}.

(** [JSON.stringify( err )]: an error object of the language has no
    enumerable property of its own, a string is printed between double
    quotes; on the rejection value of a remote call it may as well return
    [undefined] or throw (a TypeError on a circular structure). *)
Definition JSON_stringify (err : thrown) : completion value :=
  match err with
  | SyntaxError | TypeError => Normal (VStr "{}")
  | VerificationFailed =>
      Normal (VStr (double_quote ++ "Verification failed" ++ double_quote))
  | Rejection e =>
      match stringified e with
      | JsonText s => Normal (VStr s)
      | JsonUndefined => Normal VUndefined
      | JsonThrows => Throw TypeError
      end
  end.

(** The body of the [try] (lines 25-42). *)
Definition try_block (data : Request) (dataObject : value) : M unit :=
  retried <- lift (has_property "X-Slack-Retry-Num" (data_headers data)) ;;
  if negb retried then
    type <- lift (get dataObject "type") ;;
    if strict_equals_string type "url_verification" then
      challenge <- lift (verifyCall dataObject) ;;
      set_body challenge
    else if strict_equals_string type "event_callback" then
      event <- lift (get dataObject "event") ;;
      handleMessage event ;;
      set_body (VObj [("ok", VBool true)])
    else
      set_statusCode 400 ;;
      set_body (VStr "Empty request")
  else ret tt.

(** The body of the [catch] (lines 46-47): the status is assigned first,
    so when [JSON.stringify] throws the status is 500 already and the body
    is left as it was. *)
Definition catch_block (err : thrown) : M unit :=
  set_statusCode 500 ;;
  image <- lift (JSON_stringify err) ;;
  set_body image.

(** [run]: [JSON.parse] stands before the [try]; the [finally] returns
    [response] whatever the completion of the [try] and the [catch] was.
    The result is the settlement of the promise [run] returns: [Normal]
    for a fulfilled one, [Throw] for a rejected one. *)
Definition run (data : Request) (w : World) : completion Response * World :=
  match JSON_parse (data_body data) with
  | None => (Throw SyntaxError, w)
  | Some dataObject =>
      let '(_, response, w') :=
        try_catch (try_block data dataObject) catch_block default_response w in
      (Normal response, w')
  end.

End Handler.

Arguments outside {Outside} _.
Arguments calls {Outside} _.
Arguments Build_World {Outside} _ _.
Arguments ret {Outside A} _ _ _.
Arguments throw {Outside A} _ _ _.
Arguments bind {Outside A B} _ _ _ _.
Arguments lift {Outside A} _ _ _.
Arguments try_catch {Outside A} _ _ _ _.
Arguments set_statusCode {Outside} _ _ _.
Arguments set_body {Outside} _ _ _.
Arguments catch_block {Outside} _ _ _.

(** The body the [catch] leaves behind after a rejected remote call: the
    text of the rejection, [undefined] when [JSON.stringify] returns
    that, and the untouched empty object when it throws. *)
Definition rejection_body (err : ExternalError) : value :=
  match stringified err with
  | JsonText s => VStr s
  | JsonUndefined => VUndefined
  | JsonThrows => VObj []
  end.

(** The response the [catch] leaves behind when nothing else was assigned. *)
Definition failure (err : thrown) : Response :=
  {| statusCode := 500;
     body := match JSON_stringify err with
             | Normal image => image
             | Throw _ => VObj []
             end;
     headers := default_headers |}.

(** The response of a handled [event_callback]. *)
Definition acknowledged : Response :=
  {| statusCode := 200; body := VObj [("ok", VBool true)]; headers := default_headers |}.

(** A statement that leaves the [headers] of [response] as they are,
    however it completes. *)
Definition keeps_headers {Outside A : Type} (m : M Outside A) : Prop :=
  forall r w, headers (snd (fst (m r w))) = headers r.

End Bot.

(** ** A concrete platform, to run the handler on *)

Module Demo.
Import Bot.

(** JSON texts, written member by member. *)
Definition str (s : string) : string := double_quote ++ s ++ double_quote.
Definition member (k v : string) : string := str k ++ ":" ++ v.
Definition object (members : list string) : string := "{" ++ String.concat "," members ++ "}".

Definition challenge_event (tok : string) : string * value :=
  (object [member "type" (str "url_verification");
           member "token" (str tok);
           member "challenge" (str "3eZbrw1aBm2rZgRNFdxV2595E9CY3gmdALWMmHkvFXO7tYXAYM8P")],
   VObj [("type", VStr "url_verification");
         ("token", VStr tok);
         ("challenge", VStr "3eZbrw1aBm2rZgRNFdxV2595E9CY3gmdALWMmHkvFXO7tYXAYM8P")]).

Definition mention_event (txt : string) : string * value :=
  (object [member "type" (str "event_callback");
           member "event" (object [member "text" (str txt);
                                   member "channel" (str "C024BE91L")])],
   VObj [("type", VStr "event_callback");
         ("event", VObj [("text", VStr txt); ("channel", VStr "C024BE91L")])]).

Definition bot_event (bot txt : string) : string * value :=
  (object [member "type" (str "event_callback");
           member "event" (object [member "bot_id" (str bot);
                                   member "text" (str txt);
                                   member "channel" (str "C024BE91L")])],
   VObj [("type", VStr "event_callback");
         ("event", VObj [("bot_id", VStr bot); ("text", VStr txt);
                         ("channel", VStr "C024BE91L")])]).

Definition textless_event : string * value :=
  (object [member "type" (str "event_callback");
           member "event" (object [member "channel" (str "C024BE91L")])],
   VObj [("type", VStr "event_callback");
         ("event", VObj [("channel", VStr "C024BE91L")])]).

Definition other_event : string * value :=
  (object [member "type" (str "app_rate_limited")],
   VObj [("type", VStr "app_rate_limited")]).

(** The texts the demo parser knows, each with the value [JSON.parse]
    gives for it; every other text counts as malformed. *)
Definition known_texts : list (string * value) :=
  [ challenge_event "s3cret"; challenge_event "guess";
    mention_event "@bot invalidate_cdn"; mention_event "@bot foobar";
    mention_event "@bot"; mention_event "invalidate_cdn";
    bot_event "B01" "@bot invalidate_cdn"; bot_event "" "@bot foobar";
    textless_event; other_event ].

Fixpoint lookup_text (s : string) (table : list (string * value)) : option value :=
  match table with
  | [] => None
  | (t, v) :: rest => if String.eqb s t then Some v else lookup_text s rest
  end.

Definition JSON_parse (s : string) : option value := lookup_text s known_texts.

Definition env : Env :=
  {| VERIFICATION_TOKEN := Some "s3cret";
     BOT_TOKEN := Some "xoxb-demo";
     BOT_NAME := Some "cachebot";
     CDN_DISTRIBUTION := Some "EDFDVBD6EXAMPLE" |}.

(** The outside: a clock, and whether CloudFront answers. *)
Record Outside : Type := { clock : N; cloudfront_up : bool }.

Definition Date_now (o : Outside) : N := clock o.

Definition access_denied : ExternalError :=
  {| stringified := JsonText (object [member "code" (str "AccessDenied")]) |}.

Definition CloudFront_createInvalidation (p : InvalidationParams) (o : Outside)
  : (ExternalError + InvalidationData) * Outside :=
  if cloudfront_up o
  then (inr {| Invalidation := {| Id := "I2J0I21PCUYOIK" |} |}, o)
  else (inl access_denied, o).

Definition Slack_chat_postMessage (p : PostMessageParams) (o : Outside)
  : option ExternalError * Outside := (None, o).

Definition run : Request -> World Outside -> completion Response * World Outside :=
  Bot.run Outside JSON_parse env Date_now CloudFront_createInvalidation Slack_chat_postMessage.

Definition fresh (up : bool) : World Outside :=
  {| outside := {| clock := 1700000000000; cloudfront_up := up |}; calls := [] |}.

Definition plain_headers : value := VObj [("Content-Type", VStr "application/json")].
Definition retry_headers : value :=
  VObj [("Content-Type", VStr "application/json"); ("X-Slack-Retry-Num", VStr "1")].

Definition request (headers : value) (event : string * value) : Request :=
  {| data_body := fst event; data_headers := headers |}.

(** [data] is an event_callback whose event has [bot_id] as its bot_id. *)
Definition event_callback_with_bot_id (data : Request) (bot_id : value) : Prop :=
  exists dataObject event,
    JSON_parse (data_body data) = Some dataObject /\
    get dataObject "type" = Normal (VStr "event_callback") /\
    get dataObject "event" = Normal event /\
    get event "bot_id" = Normal bot_id.

(** [data] is an event_callback whose message is not bot-authored and has
    [txt] as its text. *)
Definition event_callback_from_user (data : Request) (txt : value) : Prop :=
  exists dataObject event bot_id,
    JSON_parse (data_body data) = Some dataObject /\
    get dataObject "type" = Normal (VStr "event_callback") /\
    get dataObject "event" = Normal event /\
    get event "bot_id" = Normal bot_id /\
    truthy bot_id = false /\
    get event "text" = Normal txt.

End Demo.

(** ** The spec's wording of the command *)

Module SpecWords.

Definition is_whitespace (c : ascii) : bool :=
  match nat_of_ascii c with
  | 9 | 10 | 11 | 12 | 13 | 32 => true
  | _ => false
  end.

(** The whitespace-separated tokens of [s]; [cur] is the token being read. *)
Fixpoint tokens (s cur : string) : list string :=
  match s with
  | EmptyString => if String.eqb cur "" then [] else [cur]
  | String c rest =>
      if is_whitespace c
      then (if String.eqb cur "" then tokens rest "" else cur :: tokens rest "")
      else tokens rest (cur ++ String c EmptyString)
  end.

(** "Command := second whitespace-separated token of message.text (if
    fewer than two tokens, Command is undefined)". *)
Definition second_token (s : string) : value :=
  match nth_error (tokens s "") 1 with
  | Some t => VStr t
  | None => VUndefined
  end.

End SpecWords.

(** ** Strings *)

Lemma append_assoc (a b c : string) : (a ++ b) ++ c = a ++ (b ++ c).
Proof. induction a as [|x a IH]; simpl; [reflexivity | now rewrite IH]. Qed.

(** ** Splitting at a character *)

Lemma pieces_not_nil (sep : ascii) (s : string) : pieces sep s <> [].
Proof.
  destruct s as [|c rest]; simpl; [discriminate|].
  destruct (Ascii.eqb c sep); [discriminate|].
  destruct (pieces sep rest); discriminate.
Qed.

Lemma pieces_without_sep (sep : ascii) (s : string) :
  has_char sep s = false -> pieces sep s = [s].
Proof.
  induction s as [|c rest IH]; simpl; intros H; [reflexivity|].
  apply orb_false_iff in H. destruct H as [Hc Hrest].
  rewrite Hc, (IH Hrest). reflexivity.
Qed.

Lemma pieces_first (sep : ascii) (a b : string) :
  has_char sep a = false ->
  pieces sep (a ++ String sep b) = a :: pieces sep b.
Proof.
  induction a as [|c rest IH]; simpl; intros H.
  - rewrite Ascii.eqb_refl. reflexivity.
  - apply orb_false_iff in H. destruct H as [Hc Hrest].
    rewrite Hc, (IH Hrest). reflexivity.
Qed.

(** [split(sep, 2).pop()] is the whole string when [sep] does not occur,
    and otherwise the first piece of what follows the first [sep]. *)
Lemma split_pop_whole (sep : ascii) (s : string) :
  has_char sep s = false ->
  Array_pop (String_split sep 2 s) = VStr s.
Proof.
  intros H. unfold String_split. rewrite (pieces_without_sep _ _ H). reflexivity.
Qed.

Lemma split_pop_second (sep : ascii) (a rest : string) :
  has_char sep a = false ->
  Array_pop (String_split sep 2 (a ++ String sep rest))
  = VStr (hd EmptyString (pieces sep rest)).
Proof.
  intros H. unfold String_split. rewrite (pieces_first _ _ _ H).
  pose proof (pieces_not_nil sep rest) as Hne.
  destruct (pieces sep rest) as [|p more]; [contradiction|reflexivity].
Qed.

(** ** Properties of the handler *)

Section Properties.

Variable Outside : Type.
Variable JSON_parse : string -> option value.
Variable env : Bot.Env.
Variable Date_now : Outside -> N.
Variable CloudFront_createInvalidation :
  Bot.InvalidationParams -> Outside -> (ExternalError + Bot.InvalidationData) * Outside.
Variable Slack_chat_postMessage :
  Bot.PostMessageParams -> Outside -> option ExternalError * Outside.

Import Bot.

Local Abbreviation World := (Bot.World Outside).
Local Abbreviation run :=
  (Bot.run Outside JSON_parse env Date_now CloudFront_createInvalidation Slack_chat_postMessage).
Local Abbreviation handleMessage :=
  (Bot.handleMessage Outside env Date_now CloudFront_createInvalidation Slack_chat_postMessage).
Local Abbreviation dispatch :=
  (Bot.dispatch Outside env Date_now CloudFront_createInvalidation Slack_chat_postMessage).
Local Abbreviation case_invalidate_cdn :=
  (Bot.case_invalidate_cdn Outside env Date_now CloudFront_createInvalidation Slack_chat_postMessage).
Local Abbreviation case_default := (Bot.case_default Outside env Slack_chat_postMessage).
Local Abbreviation try_block :=
  (Bot.try_block Outside env Date_now CloudFront_createInvalidation Slack_chat_postMessage).
Local Abbreviation invalidation_params := (Bot.invalidation_params Outside env Date_now).
Local Abbreviation help_text := (Bot.help_text env).
Local Abbreviation verifyCall := (Bot.verifyCall env).

(** *** [handleMessage], case by case *)

Lemma handleMessage_bot_authored (message bot_id : value) (r : Response) (w : World) :
  get message "bot_id" = Normal bot_id ->
  truthy bot_id = true ->
  handleMessage message r w = (Normal tt, r, w).
Proof.
  intros Hget Htruthy. unfold Bot.handleMessage, bind.
  rewrite Hget. simpl. rewrite Htruthy. reflexivity.
Qed.

Lemma handleMessage_dispatches (message bot_id txt command : value) (r : Response) (w : World) :
  get message "bot_id" = Normal bot_id ->
  truthy bot_id = false ->
  get message "text" = Normal txt ->
  parseMessage txt = Normal command ->
  handleMessage message r w = dispatch message command r w.
Proof.
  intros Hbot Hfalsy Htext Hparse. unfold Bot.handleMessage, bind.
  rewrite Hbot. simpl. rewrite Hfalsy. simpl.
  rewrite Htext. simpl. rewrite Hparse. reflexivity.
Qed.

Lemma handleMessage_parse_throws (message bot_id txt : value) (e : thrown)
      (r : Response) (w : World) :
  get message "bot_id" = Normal bot_id ->
  truthy bot_id = false ->
  get message "text" = Normal txt ->
  parseMessage txt = Throw e ->
  handleMessage message r w = (Throw e, r, w).
Proof.
  intros Hbot Hfalsy Htext Hparse. unfold Bot.handleMessage, bind.
  rewrite Hbot. simpl. rewrite Hfalsy. simpl.
  rewrite Htext. simpl. rewrite Hparse. reflexivity.
Qed.

(** A message whose [bot_id] can be read has a [channel] that can be read. *)
Lemma get_total (o a : value) (k k' : string) :
  get o k = Normal a -> exists b, get o k' = Normal b.
Proof.
  destruct o; simpl; intros H; try discriminate; eauto.
Qed.

(** *** The remote calls *)

Lemma sendSlackMessage_logged (ch : value) (message : string) (r : Response) (w : World) :
  let params := {| token := BOT_TOKEN env; channel := ch; text := message |} in
  Bot.sendSlackMessage Outside env Slack_chat_postMessage ch message r w
  = (match fst (Slack_chat_postMessage params (outside w)) with
     | None => Normal tt
     | Some err => Throw (Rejection err)
     end,
     r,
     {| outside := snd (Slack_chat_postMessage params (outside w));
        calls := calls w ++ [PostMessage params] |}).
Proof.
  intros params. unfold Bot.sendSlackMessage. fold params.
  destruct (Slack_chat_postMessage params (outside w)) as [[err|] o]; reflexivity.
Qed.

Lemma case_default_sends (message ch : value) (r : Response) (w : World) :
  get message "channel" = Normal ch ->
  case_default message r w
  = Bot.sendSlackMessage Outside env Slack_chat_postMessage ch help_text r w.
Proof.
  intros Hch. unfold Bot.case_default, bind. rewrite Hch. reflexivity.
Qed.

Lemma case_invalidate_cdn_rejected (message : value) (err : ExternalError) (o : Outside)
      (r : Response) (w : World) :
  CloudFront_createInvalidation (invalidation_params (outside w)) (outside w) = (inl err, o) ->
  case_invalidate_cdn message r w
  = (Throw (Rejection err), r,
     {| outside := o;
        calls := calls w ++ [CreateInvalidation (invalidation_params (outside w))] |}).
Proof.
  intros Hcf. unfold Bot.case_invalidate_cdn, bind, Bot.invalidateDistribution.
  rewrite Hcf. reflexivity.
Qed.

Lemma case_invalidate_cdn_resolved (message ch : value) (invalidationData : InvalidationData)
      (o : Outside) (r : Response) (w : World) :
  CloudFront_createInvalidation (invalidation_params (outside w)) (outside w)
  = (inr invalidationData, o) ->
  get message "channel" = Normal ch ->
  case_invalidate_cdn message r w
  = Bot.sendSlackMessage Outside env Slack_chat_postMessage ch
      (invalidated_text invalidationData) r
      {| outside := o;
         calls := calls w ++ [CreateInvalidation (invalidation_params (outside w))] |}.
Proof.
  intros Hcf Hch. unfold Bot.case_invalidate_cdn, bind, Bot.invalidateDistribution.
  rewrite Hcf, Hch. reflexivity.
Qed.

(** *** [run], path by path *)

(** C1. What the code does against the claim: when the body is not JSON,
    [JSON.parse] throws before the [try] is entered, so the promise of
    [run] is rejected with the SyntaxError, no remote call is made and no
    Response comes back, with status 500 or any other. *)
Theorem malformed_body_rejects_the_promise (data : Request) (w : World) :
  JSON_parse (data_body data) = None ->
  run data w = (Throw SyntaxError, w).
Proof. intros H. unfold Bot.run. rewrite H. reflexivity. Qed.

Lemma run_parsed (data : Request) (dataObject : value) (w : World) :
  JSON_parse (data_body data) = Some dataObject ->
  exists response w', run data w = (Normal response, w').
Proof.
  intros H. unfold Bot.run. rewrite H.
  destruct (try_catch (try_block data dataObject) catch_block default_response w)
    as [[c response] w'].
  eauto.
Qed.

Lemma run_event_callback (data : Request) (dataObject event : value) (w : World) :
  JSON_parse (data_body data) = Some dataObject ->
  has_property "X-Slack-Retry-Num" (data_headers data) = Normal false ->
  get dataObject "type" = Normal (VStr "event_callback") ->
  get dataObject "event" = Normal event ->
  run data w
  = match handleMessage event default_response w with
    | (Normal _, r, w') =>
        (Normal {| statusCode := statusCode r; body := VObj [("ok", VBool true)];
                   headers := headers r |}, w')
    | (Throw err, r, w') =>
        (Normal {| statusCode := 500;
                   body := match JSON_stringify err with
                           | Normal image => image
                           | Throw _ => body r
                           end;
                   headers := headers r |}, w')
    end.
Proof.
  intros Hparse Hretry Htype Hevent. unfold Bot.run, try_catch, Bot.try_block, bind.
  rewrite Hparse, Hretry. simpl. rewrite Htype. simpl. rewrite Hevent. simpl.
  destruct (handleMessage event default_response w) as [[[u|err] r] w']; [reflexivity|].
  cbn -[JSON_stringify].
  destruct (JSON_stringify err) as [image|e]; reflexivity.
Qed.

Lemma run_url_verification_path (data : Request) (dataObject : value) (w : World) :
  JSON_parse (data_body data) = Some dataObject ->
  has_property "X-Slack-Retry-Num" (data_headers data) = Normal false ->
  get dataObject "type" = Normal (VStr "url_verification") ->
  run data w
  = (Normal match verifyCall dataObject with
            | Normal challenge =>
                {| statusCode := 200; body := challenge; headers := default_headers |}
            | Throw err => failure err
            end, w).
Proof.
  intros Hparse Hretry Htype. unfold Bot.run, try_catch, Bot.try_block, bind.
  rewrite Hparse, Hretry. simpl. rewrite Htype. simpl.
  destruct (verifyCall dataObject) as [challenge|err]; [reflexivity|].
  unfold failure. cbn -[JSON_stringify].
  destruct (JSON_stringify err) as [image|e]; reflexivity.
Qed.

Lemma run_unrecognised_type (data : Request) (dataObject type : value) (w : World) :
  JSON_parse (data_body data) = Some dataObject ->
  has_property "X-Slack-Retry-Num" (data_headers data) = Normal false ->
  get dataObject "type" = Normal type ->
  strict_equals_string type "url_verification" = false ->
  strict_equals_string type "event_callback" = false ->
  run data w
  = (Normal {| statusCode := 400; body := VStr "Empty request";
               headers := default_headers |}, w).
Proof.
  intros Hparse Hretry Htype Hurl Hevent. unfold Bot.run, try_catch, Bot.try_block, bind.
  rewrite Hparse, Hretry. simpl. rewrite Htype. simpl. rewrite Hurl, Hevent. reflexivity.
Qed.

(** *** The two message texts *)

Lemma help_text_names_the_bot (name : string) :
  BOT_NAME env = Some name -> occurs_in name help_text.
Proof.
  intros Hname. unfold occurs_in, Bot.help_text. rewrite Hname.
  eexists _, _. reflexivity.
Qed.

Lemma help_text_names_the_command : occurs_in "invalidate_cdn" help_text.
Proof.
  exists ("Sir/Madam, I don't understand what you need. Please use `@"
            ++ env_to_string (BOT_NAME env) ++ " "),
         "` to clear the CDN cache.".
  unfold Bot.help_text.
  rewrite !append_assoc. reflexivity.
Qed.

Lemma invalidated_text_shows_the_id (invalidationData : InvalidationData) :
  occurs_in (Id (Invalidation invalidationData)) (invalidated_text invalidationData).
Proof. unfold occurs_in, invalidated_text. eexists _, _. reflexivity. Qed.

(** *** The retry guard *)

(** C3. A request whose headers contain the key X-Slack-Retry-Num and
    whose body parses gets the default response unchanged (status 200, the
    empty object as body, the no-retry header), and the world is left as
    it was: no remote call is logged, whatever the parsed event is and
    whatever the environment holds. *)
Theorem retried_request_is_ignored (data : Request) (dataObject : value) (w : World) :
  JSON_parse (data_body data) = Some dataObject ->
  has_property "X-Slack-Retry-Num" (data_headers data) = Normal true ->
  run data w
  = (Normal {| statusCode := 200; body := VObj [];
               headers := VObj [("X-Slack-No-Retry", VNum 1%float)] |}, w).
Proof.
  intros Hparse Hretry. unfold Bot.run, try_catch, Bot.try_block, bind.
  rewrite Hparse, Hretry. reflexivity.
Qed.

(** *** URL verification *)

(** C5. For a url_verification event delivered without the retry header,
    the handler returns some response and calls nothing; that response has
    status 200 and the challenge of the input as body exactly when the
    token of the event is strictly equal to the configured secret, and when
    it is not the thrown string reaches the catch: status 500, the
    stringified error as body. *)
Theorem url_verification_checks_token (data : Request) (dataObject tok : value) (w : World) :
  JSON_parse (data_body data) = Some dataObject ->
  has_property "X-Slack-Retry-Num" (data_headers data) = Normal false ->
  get dataObject "type" = Normal (VStr "url_verification") ->
  get dataObject "token" = Normal tok ->
  exists challenge response,
    get dataObject "challenge" = Normal challenge /\
    run data w = (Normal response, w) /\
    ((statusCode response = 200%Z /\ body response = challenge)
     <-> strict_equals_env tok (VERIFICATION_TOKEN env) = true) /\
    (strict_equals_env tok (VERIFICATION_TOKEN env) = false ->
     statusCode response = 500%Z /\
     JSON_stringify VerificationFailed = Normal (body response)).
Proof.
  intros Hparse Hretry Htype Htok.
  destruct (get_total dataObject tok "token" "challenge" Htok) as [challenge Hch].
  exists challenge.
  rewrite (run_url_verification_path data dataObject w Hparse Hretry Htype).
  unfold Bot.verifyCall. rewrite Htok, Hch.
  destruct (strict_equals_env tok (VERIFICATION_TOKEN env)) eqn:Heq.
  - eexists. split; [reflexivity|]. split; [reflexivity|].
    split; [|discriminate]. simpl. split; auto.
  - eexists. split; [reflexivity|]. split; [reflexivity|].
    split; [|intros _; split; reflexivity].
    simpl. split; [intros [H _]; discriminate | discriminate].
Qed.

(** *** Event callbacks *)

(** C6 (amended). For an event_callback delivered without the retry header
    whose event has a truthy bot_id, the handler logs no remote call and
    returns status 200 with body {ok: true}. *)
Theorem bot_authored_event_is_acknowledged
        (data : Request) (dataObject event bot_id : value) (w : World) :
  JSON_parse (data_body data) = Some dataObject ->
  has_property "X-Slack-Retry-Num" (data_headers data) = Normal false ->
  get dataObject "type" = Normal (VStr "event_callback") ->
  get dataObject "event" = Normal event ->
  get event "bot_id" = Normal bot_id ->
  truthy bot_id = true ->
  run data w
  = (Normal {| statusCode := 200; body := VObj [("ok", VBool true)];
               headers := default_headers |}, w).
Proof.
  intros Hparse Hretry Htype Hevent Hbot Htruthy.
  rewrite (run_event_callback data dataObject event w Hparse Hretry Htype Hevent).
  rewrite (handleMessage_bot_authored event bot_id _ _ Hbot Htruthy). reflexivity.
Qed.

(** C7 (amended). For an event_callback delivered without the retry header
    whose message is not bot-authored and whose parsed command is anything
    but "invalidate_cdn", the handler logs exactly one remote call, a
    postMessage to the channel of the message; its text is the help text,
    in which the configured bot name and the one supported command occur.
    The response is {ok: true} when Slack accepts the message; when Slack
    rejects it the status is 500 and the body is what the catch leaves:
    the text JSON.stringify makes of the rejection, undefined when it
    returns that, and the untouched empty object when it throws. *)
Theorem unknown_command_gets_help
        (data : Request) (dataObject event bot_id txt command : value) (w : World) :
  JSON_parse (data_body data) = Some dataObject ->
  has_property "X-Slack-Retry-Num" (data_headers data) = Normal false ->
  get dataObject "type" = Normal (VStr "event_callback") ->
  get dataObject "event" = Normal event ->
  get event "bot_id" = Normal bot_id ->
  truthy bot_id = false ->
  get event "text" = Normal txt ->
  parseMessage txt = Normal command ->
  strict_equals_string command "invalidate_cdn" = false ->
  exists ch,
    get event "channel" = Normal ch /\
    let post := {| token := BOT_TOKEN env; channel := ch; text := help_text |} in
    calls (snd (run data w)) = (calls w ++ [PostMessage post])%list /\
    fst (run data w)
    = Normal match fst (Slack_chat_postMessage post (outside w)) with
             | None => acknowledged
             | Some err => {| statusCode := 500; body := rejection_body err;
                              headers := default_headers |}
             end /\
    (forall name, BOT_NAME env = Some name -> occurs_in name (text post)) /\
    occurs_in "invalidate_cdn" (text post).
Proof.
  intros Hparse Hretry Htype Hevent Hbot Hfalsy Htext Hcmd Hother.
  destruct (get_total event bot_id "bot_id" "channel" Hbot) as [ch Hch].
  exists ch. split; [exact Hch|]. intros post.
  rewrite (run_event_callback data dataObject event w Hparse Hretry Htype Hevent).
  rewrite (handleMessage_dispatches event bot_id txt command _ _ Hbot Hfalsy Htext Hcmd).
  unfold Bot.dispatch. rewrite Hother.
  rewrite (case_default_sends event ch _ _ Hch).
  rewrite sendSlackMessage_logged. fold post.
  repeat split.
  - destruct (fst (Slack_chat_postMessage post (outside w))); reflexivity.
  - destruct (fst (Slack_chat_postMessage post (outside w))) as [err|]; [|reflexivity].
    unfold rejection_body. cbn. destruct (stringified err); reflexivity.
  - intros name Hname. exact (help_text_names_the_bot name Hname).
  - exact help_text_names_the_command.
Qed.

(** C4 (amended). For an event_callback delivered without the retry header
    whose message is not bot-authored and whose parsed command is
    "invalidate_cdn", the handler first calls createInvalidation, once.
    When that call resolves, the handler then calls postMessage, once, on
    the outside as the invalidation left it, and the text sent contains the
    Id of the invalidation; nothing else is called.  When it is rejected,
    nothing is sent, the status is 500 and the body is what the catch
    leaves: the text JSON.stringify makes of the rejection, undefined when
    it returns that, and the untouched empty object when it throws. *)
Theorem invalidate_cdn_invalidates_then_notifies
        (data : Request) (dataObject event bot_id txt command : value) (w : World) :
  JSON_parse (data_body data) = Some dataObject ->
  has_property "X-Slack-Retry-Num" (data_headers data) = Normal false ->
  get dataObject "type" = Normal (VStr "event_callback") ->
  get dataObject "event" = Normal event ->
  get event "bot_id" = Normal bot_id ->
  truthy bot_id = false ->
  get event "text" = Normal txt ->
  parseMessage txt = Normal command ->
  strict_equals_string command "invalidate_cdn" = true ->
  let params := invalidation_params (outside w) in
  exists ch,
    get event "channel" = Normal ch /\
    match CloudFront_createInvalidation params (outside w) with
    | (inr invalidationData, o) =>
        let post := {| token := BOT_TOKEN env; channel := ch;
                       text := invalidated_text invalidationData |} in
        calls (snd (run data w))
        = (calls w ++ [CreateInvalidation params; PostMessage post])%list /\
        outside (snd (run data w)) = snd (Slack_chat_postMessage post o) /\
        occurs_in (Id (Invalidation invalidationData)) (text post)
    | (inl err, o) =>
        run data w
        = (Normal {| statusCode := 500; body := rejection_body err;
                     headers := default_headers |},
           {| outside := o; calls := (calls w ++ [CreateInvalidation params])%list |})
    end.
Proof.
  intros Hparse Hretry Htype Hevent Hbot Hfalsy Htext Hcmd Hinv params.
  destruct (get_total event bot_id "bot_id" "channel" Hbot) as [ch Hch].
  exists ch. split; [exact Hch|].
  rewrite (run_event_callback data dataObject event w Hparse Hretry Htype Hevent).
  rewrite (handleMessage_dispatches event bot_id txt command _ _ Hbot Hfalsy Htext Hcmd).
  unfold Bot.dispatch. rewrite Hinv.
  destruct (CloudFront_createInvalidation params (outside w)) as [[err|invalidationData] o] eqn:Hcf.
  - rewrite (case_invalidate_cdn_rejected event err o _ _ Hcf).
    unfold rejection_body. cbn. destruct (stringified err); reflexivity.
  - set (post := {| token := BOT_TOKEN env; channel := ch;
                    text := invalidated_text invalidationData |}).
    rewrite (case_invalidate_cdn_resolved event ch invalidationData o _ _ Hcf Hch).
    rewrite sendSlackMessage_logged. fold post. cbn [outside calls].
    split; [|split].
    + destruct (fst (Slack_chat_postMessage post o)); cbn [snd calls];
        rewrite <- app_assoc; reflexivity.
    + destruct (fst (Slack_chat_postMessage post o)); reflexivity.
    + exact (invalidated_text_shows_the_id invalidationData).
Qed.

(** C10 (amended). For an event_callback delivered without the retry
    header whose event has a falsy bot_id (or none) and a text that is not
    a string, parseMessage throws a TypeError; the catch turns it into
    status 500 with the stringified error as body, not {ok: true}, and the
    world is left as it was: no remote call is logged. *)
Theorem textless_event_is_a_server_error
        (data : Request) (dataObject event bot_id txt : value) (w : World) :
  JSON_parse (data_body data) = Some dataObject ->
  has_property "X-Slack-Retry-Num" (data_headers data) = Normal false ->
  get dataObject "type" = Normal (VStr "event_callback") ->
  get dataObject "event" = Normal event ->
  get event "bot_id" = Normal bot_id ->
  truthy bot_id = false ->
  get event "text" = Normal txt ->
  (forall s, txt <> VStr s) ->
  parseMessage txt = Throw TypeError /\
  JSON_stringify TypeError = Normal (VStr "{}") /\
  run data w
  = (Normal {| statusCode := 500; body := VStr "{}";
               headers := default_headers |}, w) /\
  VStr "{}" <> VObj [("ok", VBool true)].
Proof.
  intros Hparse Hretry Htype Hevent Hbot Hfalsy Htext Hnostring.
  assert (Hthrow : parseMessage txt = Throw TypeError).
  { destruct txt; try reflexivity. exfalso. exact (Hnostring s eq_refl). }
  split; [exact Hthrow|]. split; [reflexivity|]. split; [|discriminate].
  rewrite (run_event_callback data dataObject event w Hparse Hretry Htype Hevent).
  rewrite (handleMessage_parse_throws event bot_id txt TypeError _ _ Hbot Hfalsy Htext Hthrow).
  reflexivity.
Qed.

(** *** Command parsing *)


(** C2 (amended). The command is the last of the first two pieces of the
    text cut at every space character: the whole text when it has no
    space, and otherwise what stands between the first space and the
    second (or the end).  So "@bot invalidate_cdn" gives "invalidate_cdn",
    and a text without a space gives itself, on which the switch takes
    its default case unless the text is "invalidate_cdn". *)
Theorem parseMessage_is_split_pop :
  (forall s, has_char " " s = false -> parseMessage (VStr s) = Normal (VStr s)) /\
  (forall a b,
      has_char " " a = false -> has_char " " b = false ->
      parseMessage (VStr (a ++ " " ++ b)) = Normal (VStr b)) /\
  (forall a b c,
      has_char " " a = false -> has_char " " b = false ->
      parseMessage (VStr (a ++ " " ++ b ++ " " ++ c)) = Normal (VStr b)) /\
  parseMessage (VStr "@bot invalidate_cdn") = Normal (VStr "invalidate_cdn") /\
  (forall s message,
      has_char " " s = false -> s <> "invalidate_cdn" ->
      dispatch message (VStr s) = case_default message).
Proof.
  split; [|split; [|split; [|split]]].
  - intros s Hs. unfold parseMessage. rewrite (split_pop_whole _ _ Hs). reflexivity.
  - intros a b Ha Hb. unfold parseMessage.
    change (a ++ " " ++ b) with (a ++ String " " b).
    rewrite (split_pop_second _ a b Ha), (pieces_without_sep _ _ Hb). reflexivity.
  - intros a b c Ha Hb. unfold parseMessage.
    change (a ++ " " ++ b ++ " " ++ c) with (a ++ String " " (b ++ String " " c)).
    rewrite (split_pop_second _ a _ Ha), (pieces_first _ b c Hb). reflexivity.
  - reflexivity.
  - intros s message Hs Hne. unfold Bot.dispatch. simpl.
    apply String.eqb_neq in Hne. rewrite Hne. reflexivity.
Qed.

(** *** The headers of the response *)

Lemma keeps_headers_ret {A} (a : A) : keeps_headers (@ret Outside A a).
Proof. intros r w. reflexivity. Qed.

Lemma keeps_headers_throw {A} (e : thrown) : keeps_headers (@throw Outside A e).
Proof. intros r w. reflexivity. Qed.

Lemma keeps_headers_lift {A} (c : completion A) : keeps_headers (@lift Outside A c).
Proof. destruct c; intros r w; reflexivity. Qed.

Lemma keeps_headers_bind {A B} (m : M Outside A) (k : A -> M Outside B) :
  keeps_headers m -> (forall a, keeps_headers (k a)) -> keeps_headers (bind m k).
Proof.
  intros Hm Hk r w. unfold bind. specialize (Hm r w).
  destruct (m r w) as [[[a|e] r'] w']; simpl in *.
  - rewrite (Hk a r' w'). exact Hm.
  - exact Hm.
Qed.

Lemma keeps_headers_try_catch {A} (m : M Outside A) (handler : thrown -> M Outside A) :
  keeps_headers m -> (forall e, keeps_headers (handler e)) ->
  keeps_headers (try_catch m handler).
Proof.
  intros Hm Hh r w. unfold try_catch. specialize (Hm r w).
  destruct (m r w) as [[[a|e] r'] w']; simpl in *.
  - exact Hm.
  - rewrite (Hh e r' w'). exact Hm.
Qed.

Lemma keeps_headers_set_statusCode (c : Z) : keeps_headers (@set_statusCode Outside c).
Proof. intros r w. reflexivity. Qed.

Lemma keeps_headers_set_body (b : value) : keeps_headers (@set_body Outside b).
Proof. intros r w. reflexivity. Qed.

Lemma keeps_headers_sendSlackMessage (ch : value) (message : string) :
  keeps_headers (Bot.sendSlackMessage Outside env Slack_chat_postMessage ch message).
Proof.
  intros r w. rewrite sendSlackMessage_logged. reflexivity.
Qed.

Lemma keeps_headers_invalidateDistribution :
  keeps_headers
    (Bot.invalidateDistribution Outside env Date_now CloudFront_createInvalidation).
Proof.
  intros r w. unfold Bot.invalidateDistribution.
  destruct (CloudFront_createInvalidation _ _) as [[err|d] o]; reflexivity.
Qed.

(** Goes through a statement built from the pieces above. *)
Ltac keep_headers :=
  repeat first
    [ assumption
    | match goal with H : forall x, keeps_headers _ |- _ => apply H end
    | apply keeps_headers_ret
    | apply keeps_headers_throw
    | apply keeps_headers_lift
    | apply keeps_headers_set_statusCode
    | apply keeps_headers_set_body
    | apply keeps_headers_sendSlackMessage
    | apply keeps_headers_invalidateDistribution
    | match goal with |- keeps_headers (if ?b then _ else _) => destruct b end
    | apply keeps_headers_bind; [|intros ?]
    | apply keeps_headers_try_catch; [|intros ?] ].

Lemma keeps_headers_handleMessage (message : value) : keeps_headers (handleMessage message).
Proof.
  unfold Bot.handleMessage, Bot.dispatch, Bot.case_invalidate_cdn, Bot.case_default.
  keep_headers.
Qed.

Lemma keeps_headers_try_block (data : Request) (dataObject : value) :
  keeps_headers (try_block data dataObject).
Proof.
  pose proof keeps_headers_handleMessage as Hhandle.
  unfold Bot.try_block. keep_headers.
Qed.

Lemma keeps_headers_catch_block (err : thrown) : keeps_headers (@catch_block Outside err).
Proof. unfold catch_block. keep_headers. Qed.

(** C8 (amended). Whenever the handler returns a response, on the
    success, the 400 and the 500 path alike, its headers are the default
    mapping of X-Slack-No-Retry to the number 1; and once the body has
    parsed the finally block does return a response, however the try and
    the catch completed. *)
Theorem response_headers_are_the_default (data : Request) (w : World) :
  (forall response w',
      run data w = (Normal response, w') ->
      headers response = VObj [("X-Slack-No-Retry", VNum 1%float)]) /\
  (forall dataObject,
      JSON_parse (data_body data) = Some dataObject ->
      exists response w', run data w = (Normal response, w')).
Proof.
  split.
  - intros response w' Hrun. unfold Bot.run in Hrun.
    destruct (JSON_parse (data_body data)) as [dataObject|]; [|discriminate].
    pose proof (keeps_headers_try_catch _ _ (keeps_headers_try_block data dataObject)
                  keeps_headers_catch_block default_response w) as Hkeep.
    destruct (try_catch (try_block data dataObject) catch_block default_response w)
      as [[c r] w''].
    injection Hrun as Hr _. subst r. exact Hkeep.
  - intros dataObject Hparse. exact (run_parsed data dataObject w Hparse).
Qed.

End Properties.

(** ** The handler on the demo platform *)

Section Scenarios.

Import Bot Demo.

Local Abbreviation run := Demo.run.

(** C1 at a body that is not JSON. *)
Lemma malformed_body_rejects_the_promise_witness :
  run {| data_body := "not json"; data_headers := plain_headers |} (fresh true)
  = (Throw SyntaxError, fresh true).
Proof.
  apply (malformed_body_rejects_the_promise Outside JSON_parse env Date_now
           CloudFront_createInvalidation Slack_chat_postMessage).
  reflexivity.
Defined.

(** C2, as stated, fails: the command of "@bot" is "@bot" itself, neither
    undefined nor empty; and parseMessage is not the second
    whitespace-separated token, neither on "@bot" nor on a text with two
    spaces after the mention. *)
Lemma single_token_is_not_undefined :
  parseMessage (VStr "@bot") = Normal (VStr "@bot") /\
  parseMessage (VStr "@bot") <> Normal VUndefined /\
  parseMessage (VStr "@bot") <> Normal (VStr "") /\
  parseMessage (VStr "@bot") <> Normal (SpecWords.second_token "@bot") /\
  parseMessage (VStr "@bot  invalidate_cdn")
  <> Normal (SpecWords.second_token "@bot  invalidate_cdn").
Proof. repeat split; try reflexivity; vm_compute; discriminate. Qed.

Lemma parseMessage_is_split_pop_witness :
  parseMessage (VStr "@bot") = Normal (VStr "@bot") /\
  parseMessage (VStr ("@bot" ++ " " ++ "foobar")) = Normal (VStr "foobar") /\
  parseMessage (VStr ("@bot" ++ " " ++ "invalidate_cdn" ++ " " ++ "now please"))
  = Normal (VStr "invalidate_cdn") /\
  Bot.dispatch Outside env Date_now CloudFront_createInvalidation Slack_chat_postMessage
    VNull (VStr "@bot")
  = Bot.case_default Outside env Slack_chat_postMessage VNull.
Proof.
  destruct (parseMessage_is_split_pop Outside env Date_now CloudFront_createInvalidation
              Slack_chat_postMessage) as (Hwhole & Hsecond & Hthird & _ & Hdefault).
  split; [|split; [|split]].
  - apply Hwhole. reflexivity.
  - apply Hsecond; reflexivity.
  - apply Hthird; reflexivity.
  - apply Hdefault; [reflexivity | discriminate].
Defined.

(** C3 at a retried delivery of a mention. *)
Lemma retried_request_is_ignored_witness :
  run (request retry_headers (mention_event "@bot invalidate_cdn")) (fresh true)
  = (Normal {| statusCode := 200; body := VObj [];
               headers := VObj [("X-Slack-No-Retry", VNum 1%float)] |}, fresh true).
Proof.
  apply (retried_request_is_ignored Outside JSON_parse env Date_now
           CloudFront_createInvalidation Slack_chat_postMessage
           (request retry_headers (mention_event "@bot invalidate_cdn"))
           (snd (mention_event "@bot invalidate_cdn")));
    reflexivity.
Defined.

(** C4, as stated, fails twice.  A retried delivery of the mention calls
    nothing at all; and when CloudFront rejects the invalidation, the one
    createInvalidation call is followed by no postMessage. *)
Lemma invalidate_cdn_without_notification :
  let retried := request retry_headers (mention_event "@bot invalidate_cdn") in
  let first := request plain_headers (mention_event "@bot invalidate_cdn") in
  event_callback_from_user retried (VStr "@bot invalidate_cdn") /\
  parseMessage (VStr "@bot invalidate_cdn") = Normal (VStr "invalidate_cdn") /\
  calls (snd (run retried (fresh true))) = [] /\
  event_callback_from_user first (VStr "@bot invalidate_cdn") /\
  calls (snd (run first (fresh false)))
  = [CreateInvalidation
       (Bot.invalidation_params Outside env Date_now (outside (fresh false)))].
Proof.
  intros retried first.
  split; [|split; [|split; [|split]]]; try reflexivity.
  - exists (snd (mention_event "@bot invalidate_cdn")). repeat eexists.
  - exists (snd (mention_event "@bot invalidate_cdn")). repeat eexists.
Qed.

Lemma invalidate_cdn_invalidates_then_notifies_witness :
  let data := request plain_headers (mention_event "@bot invalidate_cdn") in
  let params := Bot.invalidation_params Outside env Date_now (outside (fresh true)) in
  exists ch,
    get (VObj [("text", VStr "@bot invalidate_cdn"); ("channel", VStr "C024BE91L")])
        "channel" = Normal ch /\
    let post := {| token := BOT_TOKEN env; channel := ch;
                   text := invalidated_text
                             {| Invalidation := {| Id := "I2J0I21PCUYOIK" |} |} |} in
    calls (snd (run data (fresh true)))
    = (calls (fresh true) ++ [CreateInvalidation params; PostMessage post])%list /\
    outside (snd (run data (fresh true)))
    = snd (Slack_chat_postMessage post (outside (fresh true))) /\
    occurs_in "I2J0I21PCUYOIK" (text post).
Proof.
  intros data params.
  exact (invalidate_cdn_invalidates_then_notifies Outside JSON_parse env Date_now
           CloudFront_createInvalidation Slack_chat_postMessage
           data (snd (mention_event "@bot invalidate_cdn"))
           (VObj [("text", VStr "@bot invalidate_cdn"); ("channel", VStr "C024BE91L")])
           VUndefined (VStr "@bot invalidate_cdn") (VStr "invalidate_cdn") (fresh true)
           eq_refl eq_refl eq_refl eq_refl eq_refl eq_refl eq_refl eq_refl eq_refl).
Defined.

(** C5 at a challenge with the configured token. *)
Lemma url_verification_checks_token_witness :
  let data := request plain_headers (challenge_event "s3cret") in
  exists challenge response,
    get (snd (challenge_event "s3cret")) "challenge" = Normal challenge /\
    run data (fresh true) = (Normal response, fresh true) /\
    ((statusCode response = 200%Z /\ body response = challenge)
     <-> strict_equals_env (VStr "s3cret") (VERIFICATION_TOKEN env) = true) /\
    (strict_equals_env (VStr "s3cret") (VERIFICATION_TOKEN env) = false ->
     statusCode response = 500%Z /\
     JSON_stringify VerificationFailed = Normal (body response)).
Proof.
  intros data.
  apply (url_verification_checks_token Outside JSON_parse env Date_now
           CloudFront_createInvalidation Slack_chat_postMessage
           data (snd (challenge_event "s3cret")) (VStr "s3cret") (fresh true));
    reflexivity.
Defined.

(** C6, as stated, fails: a retried delivery of a bot-authored message is
    answered with the empty object, not with {ok: true}; and a bot_id that
    is present but empty does not stop the handler from posting. *)
Lemma bot_id_without_acknowledgement :
  let retried := request retry_headers (bot_event "B01" "@bot invalidate_cdn") in
  let empty_id := request plain_headers (bot_event "" "@bot foobar") in
  event_callback_with_bot_id retried (VStr "B01") /\
  run retried (fresh true) = (Normal default_response, fresh true) /\
  body default_response <> VObj [("ok", VBool true)] /\
  event_callback_with_bot_id empty_id (VStr "") /\
  calls (snd (run empty_id (fresh true)))
  = [PostMessage {| token := BOT_TOKEN env; channel := VStr "C024BE91L";
                    text := Bot.help_text env |}].
Proof.
  intros retried empty_id.
  split; [|split; [|split; [|split]]]; try reflexivity.
  - exists (snd (bot_event "B01" "@bot invalidate_cdn")). repeat eexists.
  - discriminate.
  - exists (snd (bot_event "" "@bot foobar")). repeat eexists.
Qed.

Lemma bot_authored_event_is_acknowledged_witness :
  run (request plain_headers (bot_event "B01" "@bot invalidate_cdn")) (fresh true)
  = (Normal {| statusCode := 200; body := VObj [("ok", VBool true)];
               headers := default_headers |}, fresh true).
Proof.
  apply (bot_authored_event_is_acknowledged Outside JSON_parse env Date_now
           CloudFront_createInvalidation Slack_chat_postMessage
           (request plain_headers (bot_event "B01" "@bot invalidate_cdn"))
           (snd (bot_event "B01" "@bot invalidate_cdn"))
           (VObj [("bot_id", VStr "B01"); ("text", VStr "@bot invalidate_cdn");
                  ("channel", VStr "C024BE91L")])
           (VStr "B01"));
    reflexivity.
Defined.

(** C7, as stated, fails: a retried delivery of an unknown command sends
    nothing. *)
Lemma unknown_command_without_help :
  let retried := request retry_headers (mention_event "@bot foobar") in
  event_callback_from_user retried (VStr "@bot foobar") /\
  parseMessage (VStr "@bot foobar") = Normal (VStr "foobar") /\
  strict_equals_string (VStr "foobar") "invalidate_cdn" = false /\
  calls (snd (run retried (fresh true))) = [].
Proof.
  intros retried.
  split; [|split; [|split]]; try reflexivity.
  exists (snd (mention_event "@bot foobar")). repeat eexists.
Qed.

Lemma unknown_command_gets_help_witness :
  let data := request plain_headers (mention_event "@bot foobar") in
  exists ch,
    get (VObj [("text", VStr "@bot foobar"); ("channel", VStr "C024BE91L")]) "channel"
    = Normal ch /\
    let post := {| token := BOT_TOKEN env; channel := ch; text := Bot.help_text env |} in
    calls (snd (run data (fresh true))) = (calls (fresh true) ++ [PostMessage post])%list /\
    fst (run data (fresh true))
    = Normal match fst (Slack_chat_postMessage post (outside (fresh true))) with
             | None => acknowledged
             | Some err => {| statusCode := 500; body := rejection_body err;
                              headers := default_headers |}
             end /\
    (forall name, BOT_NAME env = Some name -> occurs_in name (text post)) /\
    occurs_in "invalidate_cdn" (text post).
Proof.
  intros data.
  exact (unknown_command_gets_help Outside JSON_parse env Date_now
           CloudFront_createInvalidation Slack_chat_postMessage
           data (snd (mention_event "@bot foobar"))
           (VObj [("text", VStr "@bot foobar"); ("channel", VStr "C024BE91L")])
           VUndefined (VStr "@bot foobar") (VStr "foobar") (fresh true)
           eq_refl eq_refl eq_refl eq_refl eq_refl eq_refl eq_refl eq_refl eq_refl).
Defined.

(** C8, as stated, fails: the value under X-Slack-No-Retry is the number
    1, not the string "1". *)
Lemma no_retry_header_is_a_number :
  let data := request plain_headers (challenge_event "s3cret") in
  exists response,
    run data (fresh true) = (Normal response, fresh true) /\
    headers response = VObj [("X-Slack-No-Retry", VNum 1%float)] /\
    headers response <> VObj [("X-Slack-No-Retry", VStr "1")].
Proof.
  intros data. eexists. split; [reflexivity|]. split; [reflexivity|]. discriminate.
Qed.

Lemma response_headers_are_the_default_witness :
  let data := request plain_headers other_event in
  let response := {| statusCode := 400; body := VStr "Empty request";
                     headers := default_headers |} in
  run data (fresh true) = (Normal response, fresh true) /\
  headers response = VObj [("X-Slack-No-Retry", VNum 1%float)] /\
  exists response' w', run data (fresh true) = (Normal response', w').
Proof.
  intros data response.
  destruct (response_headers_are_the_default Outside JSON_parse env Date_now
              CloudFront_createInvalidation Slack_chat_postMessage data (fresh true))
    as [Hheaders Hreturns].
  split; [reflexivity|]. split.
  - apply (Hheaders response (fresh true)). reflexivity.
  - apply (Hreturns (snd other_event)). reflexivity.
Defined.


(** C10, as stated, fails: a retried delivery of a message without text
    is answered 200 with the empty object, and nothing is parsed. *)
Lemma textless_event_without_error :
  let retried := request retry_headers textless_event in
  event_callback_from_user retried VUndefined /\
  (forall s, VUndefined <> VStr s) /\
  run retried (fresh true) = (Normal default_response, fresh true) /\
  statusCode default_response <> 500%Z.
Proof.
  intros retried.
  split; [|split; [|split]]; try reflexivity; try discriminate.
  exists (snd textless_event). repeat eexists.
Qed.

Lemma textless_event_is_a_server_error_witness :
  let data := request plain_headers textless_event in
  parseMessage VUndefined = Throw TypeError /\
  JSON_stringify TypeError = Normal (VStr "{}") /\
  run data (fresh true)
  = (Normal {| statusCode := 500; body := VStr "{}";
               headers := default_headers |}, fresh true) /\
  VStr "{}" <> VObj [("ok", VBool true)].
Proof.
  intros data.
  apply (textless_event_is_a_server_error Outside JSON_parse env Date_now
           CloudFront_createInvalidation Slack_chat_postMessage
           data (snd textless_event) (VObj [("channel", VStr "C024BE91L")])
           VUndefined VUndefined (fresh true));
    try reflexivity.
  intros s. discriminate.
Defined.

End Scenarios.

(** ** More on command parsing *)

Lemma append_empty_r (s : string) : s ++ "" = s.
Proof. induction s as [|c s IH]; simpl; [reflexivity | now rewrite IH]. Qed.

(** A string either lacks [sep] or is cut at its first [sep]. *)
Lemma first_occurrence (sep : ascii) (s : string) :
  has_char sep s = false \/
  exists a rest, has_char sep a = false /\ s = a ++ String sep rest.
Proof.
  induction s as [|c s IH]; [left; reflexivity|].
  destruct (Ascii.eqb c sep) eqn:Hc.
  - right. exists "", s. apply Ascii.eqb_eq in Hc. subst c. split; reflexivity.
  - destruct IH as [Hs | (a & rest & Ha & Hs)].
    + left. simpl. rewrite Hc, Hs. reflexivity.
    + right. exists (String c a), rest. split.
      * simpl. rewrite Hc, Ha. reflexivity.
      * simpl. rewrite Hs. reflexivity.
Qed.

(** X13. Which texts give which command: parseMessage returns [cmd] on the
    text [s] exactly when [cmd] has no space and [s] is [cmd] alone, or
    some first word without a space (possibly empty), one space and
    [cmd], either up to the end of the text or up to a second space with
    anything after it. *)
Theorem parseMessage_command_iff (s cmd : string) :
  Bot.parseMessage (VStr s) = Normal (VStr cmd)
  <-> has_char " " cmd = false /\
      (s = cmd \/
       exists a, has_char " " a = false /\
                 (s = a ++ " " ++ cmd \/ exists c, s = a ++ " " ++ cmd ++ " " ++ c)).
Proof.
  unfold Bot.parseMessage. split.
  - intros Hparse.
    destruct (first_occurrence " " s) as [Hs | (a & rest & Ha & Hs)].
    + rewrite (split_pop_whole _ _ Hs) in Hparse.
      injection Hparse as Hcmd. subst cmd. split; [exact Hs | left; reflexivity].
    + subst s. rewrite (split_pop_second _ a rest Ha) in Hparse.
      destruct (first_occurrence " " rest) as [Hrest | (b & c & Hb & Hrest)].
      * rewrite (pieces_without_sep _ _ Hrest) in Hparse.
        injection Hparse as Hcmd. subst cmd.
        split; [exact Hrest|]. right. exists a. split; [exact Ha | left; reflexivity].
      * subst rest. rewrite (pieces_first _ b c Hb) in Hparse.
        injection Hparse as Hcmd. subst cmd.
        split; [exact Hb|]. right. exists a. split; [exact Ha|].
        right. exists c. reflexivity.
  - intros [Hcmd [Hs | (a & Ha & [Hs | (c & Hs)])]]; subst s.
    + rewrite (split_pop_whole _ _ Hcmd). reflexivity.
    + change (a ++ " " ++ cmd) with (a ++ String " " cmd).
      rewrite (split_pop_second _ a cmd Ha), (pieces_without_sep _ _ Hcmd). reflexivity.
    + change (a ++ " " ++ cmd ++ " " ++ c) with (a ++ String " " (cmd ++ String " " c)).
      rewrite (split_pop_second _ a _ Ha), (pieces_first _ cmd c Hcmd). reflexivity.
Qed.

(** X14. parseMessage throws exactly on what is not a string, and then a
    TypeError; on a string it always returns a string, never undefined,
    and that command has no space in it and occurs in the text. *)
Theorem parseMessage_total_on_strings :
  (forall v, Bot.parseMessage v = Throw TypeError <-> forall s, v <> VStr s) /\
  (forall v e, Bot.parseMessage v = Throw e -> e = TypeError) /\
  (forall s, exists cmd,
      Bot.parseMessage (VStr s) = Normal (VStr cmd) /\
      has_char " " cmd = false /\
      occurs_in cmd s).
Proof.
  split; [|split].
  - intros v. split.
    + intros Hthrow s Hv. subst v. discriminate.
    + intros Hv. destruct v; try reflexivity. exfalso. exact (Hv s eq_refl).
  - intros v e Hthrow. destruct v; simpl in Hthrow; try discriminate;
      injection Hthrow as He; subst e; reflexivity.
  - intros s. unfold occurs_in, Bot.parseMessage.
    destruct (first_occurrence " " s) as [Hs | (a & rest & Ha & Hs)].
    + exists s. rewrite (split_pop_whole _ _ Hs).
      split; [reflexivity|]. split; [exact Hs|].
      exists "", "". simpl. rewrite append_empty_r. reflexivity.
    + subst s. rewrite (split_pop_second _ a rest Ha).
      destruct (first_occurrence " " rest) as [Hrest | (b & c & Hb & Hrest)].
      * exists rest. rewrite (pieces_without_sep _ _ Hrest).
        split; [reflexivity|]. split; [exact Hrest|].
        exists (a ++ " "), "". rewrite append_empty_r, append_assoc. reflexivity.
      * subst rest. exists b. rewrite (pieces_first _ b c Hb).
        split; [reflexivity|]. split; [exact Hb|].
        exists (a ++ " "), (String " " c). rewrite append_assoc. reflexivity.
Qed.

(** ** More on the handler *)

Section Coverage.

Variable Outside : Type.
Variable JSON_parse : string -> option value.
Variable env : Bot.Env.
Variable Date_now : Outside -> N.
Variable CloudFront_createInvalidation :
  Bot.InvalidationParams -> Outside -> (ExternalError + Bot.InvalidationData) * Outside.
Variable Slack_chat_postMessage :
  Bot.PostMessageParams -> Outside -> option ExternalError * Outside.

Import Bot.

Local Abbreviation World := (Bot.World Outside).
Local Abbreviation run :=
  (Bot.run Outside JSON_parse env Date_now CloudFront_createInvalidation Slack_chat_postMessage).
Local Abbreviation handleMessage :=
  (Bot.handleMessage Outside env Date_now CloudFront_createInvalidation Slack_chat_postMessage).
Local Abbreviation try_block :=
  (Bot.try_block Outside env Date_now CloudFront_createInvalidation Slack_chat_postMessage).
Local Abbreviation invalidation_params := (Bot.invalidation_params Outside env Date_now).
Local Abbreviation help_text := (Bot.help_text env).

(** What the awaited [postMessage] completes with. *)
Definition settled (reply : option ExternalError) : completion unit :=
  match reply with
  | None => Normal tt
  | Some err => Throw (Rejection err)
  end.

(** What [run] makes of a completion of the [event_callback] case. *)
Definition settled_response (c : completion unit) : Response :=
  match c with
  | Normal _ => acknowledged
  | Throw err => failure err
  end.

Lemma get_throws_TypeError (o : value) (k : string) (e : thrown) :
  get o k = Throw e -> e = TypeError.
Proof. destruct o; simpl; intros H; try discriminate; now injection H as <-. Qed.

Lemma has_property_throws_TypeError (o : value) (k : string) (e : thrown) :
  has_property k o = Throw e -> e = TypeError.
Proof. destruct o; simpl; intros H; try discriminate; now injection H as <-. Qed.

Lemma parseMessage_throws_TypeError (v : value) (e : thrown) :
  parseMessage v = Throw e -> e = TypeError.
Proof. destruct v; simpl; intros H; try discriminate; now injection H as <-. Qed.

(** Everything [handleMessage] can do, in one statement: it never touches
    [response], and it ends in one of four ways. *)
Lemma handleMessage_cases (message : value) (r : Response) (w : World) :
  exists c w',
    handleMessage message r w = (c, r, w') /\
    (((c = Normal tt \/ c = Throw TypeError) /\ w' = w)
     \/ (exists ch,
           get message "channel" = Normal ch /\
           let post := {| token := BOT_TOKEN env; channel := ch; text := help_text |} in
           c = settled (fst (Slack_chat_postMessage post (outside w))) /\
           w' = {| outside := snd (Slack_chat_postMessage post (outside w));
                   calls := (calls w ++ [PostMessage post])%list |})
     \/ (exists err o,
           CloudFront_createInvalidation (invalidation_params (outside w)) (outside w)
           = (inl err, o) /\
           c = Throw (Rejection err) /\
           w' = {| outside := o;
                   calls := (calls w
                               ++ [CreateInvalidation (invalidation_params (outside w))])%list |})
     \/ (exists invalidationData o ch,
           CloudFront_createInvalidation (invalidation_params (outside w)) (outside w)
           = (inr invalidationData, o) /\
           get message "channel" = Normal ch /\
           let post := {| token := BOT_TOKEN env; channel := ch;
                          text := invalidated_text invalidationData |} in
           c = settled (fst (Slack_chat_postMessage post o)) /\
           w' = {| outside := snd (Slack_chat_postMessage post o);
                   calls := (calls w
                               ++ [CreateInvalidation (invalidation_params (outside w));
                                   PostMessage post])%list |})).
Proof.
  destruct (get message "bot_id") as [bot_id|e] eqn:Hbot.
  2:{ exists (Throw TypeError), w. split; [|left; auto].
      apply get_throws_TypeError in Hbot as He. subst e.
      unfold Bot.handleMessage, bind. rewrite Hbot. reflexivity. }
  destruct (truthy bot_id) eqn:Htruthy.
  { exists (Normal tt), w. split; [|left; auto].
    exact (handleMessage_bot_authored Outside env Date_now CloudFront_createInvalidation
             Slack_chat_postMessage message bot_id r w Hbot Htruthy). }
  destruct (get_total message bot_id "bot_id" "text" Hbot) as [txt Htext].
  destruct (get_total message bot_id "bot_id" "channel" Hbot) as [ch Hch].
  destruct (parseMessage txt) as [command|e] eqn:Hparse.
  2:{ exists (Throw TypeError), w. split; [|left; auto].
      apply parseMessage_throws_TypeError in Hparse as He. subst e.
      exact (handleMessage_parse_throws Outside env Date_now CloudFront_createInvalidation
               Slack_chat_postMessage message bot_id txt TypeError r w
               Hbot Htruthy Htext Hparse). }
  rewrite (handleMessage_dispatches Outside env Date_now CloudFront_createInvalidation
             Slack_chat_postMessage message bot_id txt command r w Hbot Htruthy Htext Hparse).
  unfold Bot.dispatch.
  destruct (strict_equals_string command "invalidate_cdn").
  - destruct (CloudFront_createInvalidation (invalidation_params (outside w)) (outside w))
      as [[err|invalidationData] o] eqn:Hcf.
    + rewrite (case_invalidate_cdn_rejected Outside env Date_now CloudFront_createInvalidation
                 Slack_chat_postMessage message err o r w Hcf).
      eexists _, _. split; [reflexivity|]. right. right. left.
      exists err, o. auto.
    + rewrite (case_invalidate_cdn_resolved Outside env Date_now CloudFront_createInvalidation
                 Slack_chat_postMessage message ch invalidationData o r w Hcf Hch).
      rewrite sendSlackMessage_logged. cbn [outside calls].
      eexists _, _. split; [reflexivity|]. right. right. right.
      exists invalidationData, o, ch. split; [reflexivity|]. split; [exact Hch|].
      split; [reflexivity|]. rewrite <- app_assoc. reflexivity.
  - rewrite (case_default_sends Outside env Slack_chat_postMessage message ch r w Hch).
    rewrite sendSlackMessage_logged.
    eexists _, _. split; [reflexivity|]. right. left.
    exists ch. split; [exact Hch|]. split; reflexivity.
Qed.

(** Everything [run] can do once the body has parsed: either it answers
    without [handleMessage], leaving the world as it was, or it is the
    [event_callback] case. *)
Lemma run_cases (data : Request) (dataObject : value) (w : World) :
  JSON_parse (data_body data) = Some dataObject ->
  (exists response,
      run data w = (Normal response, w) /\
      (response = default_response
       \/ (exists challenge,
             response = {| statusCode := 200; body := challenge;
                           headers := default_headers |})
       \/ response = {| statusCode := 400; body := VStr "Empty request";
                        headers := default_headers |}
       \/ response = failure TypeError
       \/ response = failure VerificationFailed))
  \/ (exists event c w',
        handleMessage event default_response w = (c, default_response, w') /\
        run data w = (Normal (settled_response c), w')).
Proof.
  intros Hparse.
  destruct (has_property "X-Slack-Retry-Num" (data_headers data)) as [[|]|e] eqn:Hretry.
  - left. exists default_response. split; [|auto].
    unfold Bot.run, try_catch, Bot.try_block, bind. rewrite Hparse, Hretry. reflexivity.
  - destruct (get dataObject "type") as [type|e] eqn:Htype.
    + destruct (strict_equals_string type "url_verification") eqn:Hurl.
      * left. destruct type; try discriminate. apply String.eqb_eq in Hurl. subst s.
        rewrite (run_url_verification_path Outside JSON_parse env Date_now
                   CloudFront_createInvalidation Slack_chat_postMessage
                   data dataObject w Hparse Hretry Htype).
        eexists. split; [reflexivity|].
        unfold Bot.verifyCall.
        destruct (get dataObject "token") as [tok|e] eqn:Htok.
        -- destruct (strict_equals_env tok (VERIFICATION_TOKEN env)).
           ++ destruct (get dataObject "challenge") as [challenge|e] eqn:Hch.
              ** right. left. eauto.
              ** apply get_throws_TypeError in Hch. subst e. auto.
           ++ auto 6.
        -- apply get_throws_TypeError in Htok. subst e. auto.
      * destruct (strict_equals_string type "event_callback") eqn:Hevent.
        -- right. destruct type; try discriminate. apply String.eqb_eq in Hevent. subst s.
           destruct (get_total dataObject _ "type" "event" Htype) as [event Hev].
           destruct (handleMessage_cases event default_response w) as (c & w' & Hhandle & _).
           exists event, c, w'. split; [exact Hhandle|].
           rewrite (run_event_callback Outside JSON_parse env Date_now
                      CloudFront_createInvalidation Slack_chat_postMessage
                      data dataObject event w Hparse Hretry Htype Hev).
           rewrite Hhandle. destruct c as [[]|err]; reflexivity.
        -- left. eexists. split; [|right; right; left; reflexivity].
           exact (run_unrecognised_type Outside JSON_parse env Date_now
                    CloudFront_createInvalidation Slack_chat_postMessage
                    data dataObject type w Hparse Hretry Htype Hurl Hevent).
    + left. exists (failure TypeError). split; [|auto 6].
      apply get_throws_TypeError in Htype as He. subst e.
      unfold Bot.run, try_catch, Bot.try_block, bind.
      rewrite Hparse, Hretry. simpl. rewrite Htype. reflexivity.
  - left. exists (failure TypeError). split; [|auto 6].
    apply has_property_throws_TypeError in Hretry as He. subst e.
    unfold Bot.run, try_catch, Bot.try_block, bind. rewrite Hparse, Hretry. reflexivity.
Qed.

(** *** What [run] settles with *)

(** X1. The promise of [run] is rejected exactly when the body is not
    JSON; the rejection is then the SyntaxError and the world is as it
    was.  Whatever else goes wrong is answered with a response. *)
Theorem run_rejects_only_malformed_bodies (data : Request) (w : World) :
  (JSON_parse (data_body data) = None <-> exists e, fst (run data w) = Throw e) /\
  (forall e, fst (run data w) = Throw e -> e = SyntaxError /\ snd (run data w) = w).
Proof.
  unfold Bot.run.
  destruct (JSON_parse (data_body data)) as [dataObject|].
  - destruct (try_catch (try_block data dataObject) catch_block default_response w)
      as [[c response] w'].
    simpl. split.
    + split; [discriminate | intros [e He]; discriminate].
    + intros e He. discriminate.
  - simpl. split.
    + split; [eauto | reflexivity].
    + intros e He. injection He as <-. auto.
Qed.


(** X3. Whatever the request, [run] adds to the log of remote calls
    nothing, or one postMessage with the help text, or one
    createInvalidation, or one createInvalidation followed by one
    postMessage with the text of the invalidation: never two
    invalidations, never two messages, never a message before the
    invalidation; and the invalidation is always the one built from the
    environment and the clock at entry. *)
Theorem run_calls_at_most_two (data : Request) (w : World) :
  exists added,
    calls (snd (run data w)) = (calls w ++ added)%list /\
    (added = []
     \/ (exists post, added = [PostMessage post] /\ text post = help_text)
     \/ added = [CreateInvalidation (invalidation_params (outside w))]
     \/ (exists post invalidationData,
           added = [CreateInvalidation (invalidation_params (outside w)); PostMessage post]
           /\ text post = invalidated_text invalidationData)).
Proof.
  destruct (JSON_parse (data_body data)) as [dataObject|] eqn:Hparse.
  2:{ exists []. unfold Bot.run. rewrite Hparse. simpl. rewrite app_nil_r. auto. }
  destruct (run_cases data dataObject w Hparse)
    as [(r & Hr & _) | (event & c & w' & Hhandle & Hr)]; rewrite Hr; cbn [snd].
  - exists []. rewrite app_nil_r. auto.
  - destruct (handleMessage_cases event default_response w) as (c' & w3 & Hcases & Hways).
    rewrite Hhandle in Hcases. injection Hcases as <- <-.
    destruct Hways as [[_ ->]
                      | [(ch & _ & _ & ->)
                        | [(err & o & _ & _ & ->)
                          | (d & o & ch & _ & _ & _ & ->)]]]; cbn [calls].
    + exists []. rewrite app_nil_r. auto.
    + eexists. split; [reflexivity|]. right. left. eexists. split; reflexivity.
    + eexists. split; [reflexivity|]. right. right. left. reflexivity.
    + eexists. split; [reflexivity|]. right. right. right.
      eexists _, d. split; reflexivity.
Qed.

(** *** Requests with something missing *)

(** X4. Without the retry header, a parsed body whose type is neither
    of the two known strings is answered 400 "Empty request" with no
    remote call: a type of another value or kind, no type at all, and also
    a body that is a JSON number, string, boolean or array, whose type
    reads as undefined. *)
Theorem unrecognised_type_is_a_bad_request (data : Request) (dataObject : value) (w : World) :
  JSON_parse (data_body data) = Some dataObject ->
  has_property "X-Slack-Retry-Num" (data_headers data) = Normal false ->
  ((exists type,
       get dataObject "type" = Normal type /\
       type <> VStr "url_verification" /\ type <> VStr "event_callback")
   \/ match dataObject with
      | VBool _ | VNum _ | VStr _ | VArr _ => True
      | VUndefined | VNull | VObj _ => False
      end) ->
  run data w
  = (Normal {| statusCode := 400; body := VStr "Empty request";
               headers := default_headers |}, w).
Proof.
  intros Hparse Hretry Hkind.
  assert (Htype : exists type,
             get dataObject "type" = Normal type /\
             type <> VStr "url_verification" /\ type <> VStr "event_callback").
  { destruct Hkind as [H | H]; [exact H|].
    exists VUndefined. destruct dataObject; try contradiction;
      (split; [reflexivity | split; discriminate]). }
  destruct Htype as (type & Htype & Hurl & Hevent).
  apply (run_unrecognised_type Outside JSON_parse env Date_now
           CloudFront_createInvalidation Slack_chat_postMessage
           data dataObject type w Hparse Hretry Htype).
  - destruct type; try reflexivity. simpl. apply String.eqb_neq. congruence.
  - destruct type; try reflexivity. simpl. apply String.eqb_neq. congruence.
Qed.

(** X5. Without the retry header, a body that is the JSON null is
    answered 500 with body "{}" (the TypeError of reading its type) and no
    remote call. *)
Theorem null_body_is_a_server_error (data : Request) (w : World) :
  JSON_parse (data_body data) = Some VNull ->
  has_property "X-Slack-Retry-Num" (data_headers data) = Normal false ->
  run data w = (Normal {| statusCode := 500; body := VStr "{}";
                          headers := default_headers |}, w).
Proof.
  intros Hparse Hretry. unfold Bot.run, try_catch, Bot.try_block, bind.
  rewrite Hparse, Hretry. reflexivity.
Qed.

(** X6. When the headers of the request are not an object (undefined,
    null or a primitive), the [in] test throws, so every body that parses,
    a valid challenge included, is answered 500 with body "{}" and no
    remote call. *)
Theorem headers_must_be_an_object (data : Request) (dataObject : value) (w : World) :
  JSON_parse (data_body data) = Some dataObject ->
  (forall props, data_headers data <> VObj props) ->
  (forall items, data_headers data <> VArr items) ->
  run data w = (Normal {| statusCode := 500; body := VStr "{}";
                          headers := default_headers |}, w).
Proof.
  intros Hparse Hobj Harr. unfold Bot.run, try_catch, Bot.try_block, bind.
  rewrite Hparse.
  destruct (data_headers data) as [| | b | x | s | items | props]; try reflexivity.
  - exfalso. exact (Harr items eq_refl).
  - exfalso. exact (Hobj props eq_refl).
Qed.

(** X7. Without the retry header, an event_callback whose event is
    missing or null is answered 500 with body "{}" (the TypeError of
    reading its bot_id) and no remote call. *)
Theorem missing_event_is_a_server_error
        (data : Request) (dataObject event : value) (w : World) :
  JSON_parse (data_body data) = Some dataObject ->
  has_property "X-Slack-Retry-Num" (data_headers data) = Normal false ->
  get dataObject "type" = Normal (VStr "event_callback") ->
  get dataObject "event" = Normal event ->
  event = VUndefined \/ event = VNull ->
  run data w = (Normal {| statusCode := 500; body := VStr "{}";
                          headers := default_headers |}, w).
Proof.
  intros Hparse Hretry Htype Hevent Hmissing.
  rewrite (run_event_callback Outside JSON_parse env Date_now
             CloudFront_createInvalidation Slack_chat_postMessage
             data dataObject event w Hparse Hretry Htype Hevent).
  destruct Hmissing as [-> | ->]; reflexivity.
Qed.

(** *** Verification *)

(** X8. When VERIFICATION_TOKEN is not set, a url_verification request
    (without the retry header) that carries no token is accepted: status
    200 with its challenge as body; one that carries any token, of any
    kind, is refused with status 500. *)
Theorem unset_secret_accepts_the_missing_token
        (data : Request) (dataObject tok : value) (w : World) :
  VERIFICATION_TOKEN env = None ->
  JSON_parse (data_body data) = Some dataObject ->
  has_property "X-Slack-Retry-Num" (data_headers data) = Normal false ->
  get dataObject "type" = Normal (VStr "url_verification") ->
  get dataObject "token" = Normal tok ->
  exists challenge,
    get dataObject "challenge" = Normal challenge /\
    run data w
    = (Normal match tok with
              | VUndefined => {| statusCode := 200; body := challenge;
                                 headers := default_headers |}
              | _ => failure VerificationFailed
              end, w).
Proof.
  intros Hunset Hparse Hretry Htype Htok.
  destruct (get_total dataObject tok "token" "challenge" Htok) as [challenge Hch].
  exists challenge. split; [exact Hch|].
  rewrite (run_url_verification_path Outside JSON_parse env Date_now
             CloudFront_createInvalidation Slack_chat_postMessage
             data dataObject w Hparse Hretry Htype).
  unfold Bot.verifyCall. rewrite Htok, Hunset, Hch.
  destruct tok; reflexivity.
Qed.

(** X9. An event_callback is handled without any look at the
    verification secret or at the token of the request: the result of
    [run] is the same under every value of VERIFICATION_TOKEN, and the
    same for two requests with the same headers whose event_callbacks
    carry the same event, whatever else they carry. *)
Theorem event_callback_is_not_verified (data : Request) (dataObject : value) (w : World) :
  JSON_parse (data_body data) = Some dataObject ->
  get dataObject "type" = Normal (VStr "event_callback") ->
  (forall secret,
      Bot.run Outside JSON_parse
        {| VERIFICATION_TOKEN := secret; BOT_TOKEN := BOT_TOKEN env;
           BOT_NAME := BOT_NAME env; CDN_DISTRIBUTION := CDN_DISTRIBUTION env |}
        Date_now CloudFront_createInvalidation Slack_chat_postMessage data w
      = run data w) /\
  (forall data' dataObject',
      data_headers data' = data_headers data ->
      JSON_parse (data_body data') = Some dataObject' ->
      get dataObject' "type" = Normal (VStr "event_callback") ->
      get dataObject' "event" = get dataObject "event" ->
      run data' w = run data w).
Proof.
  intros Hparse Htype. split.
  - intros secret. unfold Bot.run, try_catch, Bot.try_block, bind.
    rewrite Hparse.
    destruct (has_property "X-Slack-Retry-Num" (data_headers data)) as [[|]|e];
      try reflexivity.
    simpl. rewrite Htype. reflexivity.
  - intros data' dataObject' Hheaders Hparse' Htype' Hevent.
    unfold Bot.run, try_catch, Bot.try_block, bind.
    rewrite Hparse, Hparse', Hheaders.
    destruct (has_property "X-Slack-Retry-Num" (data_headers data)) as [[|]|e];
      try reflexivity.
    simpl. rewrite Htype, Htype', Hevent. reflexivity.
Qed.

(** X10. [handleMessage] reads three properties of the message and
    nothing else: on two messages with the same bot_id, text and channel
    it does the same, whoever sent them. *)
Theorem handleMessage_reads_three_properties (m m' : value) (r : Response) (w : World) :
  get m "bot_id" = get m' "bot_id" ->
  get m "text" = get m' "text" ->
  get m "channel" = get m' "channel" ->
  handleMessage m r w = handleMessage m' r w.
Proof.
  intros Hbot Htext Hch.
  unfold Bot.handleMessage, Bot.dispatch, Bot.case_invalidate_cdn, Bot.case_default.
  rewrite Hbot, Htext, Hch. reflexivity.
Qed.

(** *** The invalidation and its notice *)

(** X11. After an invalidation that CloudFront accepted, the response
    follows the notice alone: {ok: true} when Slack accepts the message,
    and status 500 when Slack rejects it, although the invalidation has
    been made and stays in the log before the message.  The body of that
    500 is what the catch leaves: the text JSON.stringify makes of the
    rejection, undefined when it returns that, and the untouched empty
    object when it throws. *)
Theorem notice_decides_the_response
        (data : Request) (dataObject event bot_id txt command : value)
        (invalidationData : InvalidationData) (o : Outside) (w : World) :
  JSON_parse (data_body data) = Some dataObject ->
  has_property "X-Slack-Retry-Num" (data_headers data) = Normal false ->
  get dataObject "type" = Normal (VStr "event_callback") ->
  get dataObject "event" = Normal event ->
  get event "bot_id" = Normal bot_id ->
  truthy bot_id = false ->
  get event "text" = Normal txt ->
  parseMessage txt = Normal command ->
  strict_equals_string command "invalidate_cdn" = true ->
  CloudFront_createInvalidation (invalidation_params (outside w)) (outside w)
  = (inr invalidationData, o) ->
  exists ch,
    get event "channel" = Normal ch /\
    let post := {| token := BOT_TOKEN env; channel := ch;
                   text := invalidated_text invalidationData |} in
    run data w
    = (Normal match fst (Slack_chat_postMessage post o) with
              | None => acknowledged
              | Some err => {| statusCode := 500; body := rejection_body err;
                               headers := default_headers |}
              end,
       {| outside := snd (Slack_chat_postMessage post o);
          calls := (calls w ++ [CreateInvalidation (invalidation_params (outside w));
                                PostMessage post])%list |}).
Proof.
  intros Hparse Hretry Htype Hevent Hbot Hfalsy Htext Hcmd Hinv Hcf.
  destruct (get_total event bot_id "bot_id" "channel" Hbot) as [ch Hch].
  exists ch. split; [exact Hch|].
  set (post := {| token := BOT_TOKEN env; channel := ch;
                  text := invalidated_text invalidationData |}).
  rewrite (run_event_callback Outside JSON_parse env Date_now
             CloudFront_createInvalidation Slack_chat_postMessage
             data dataObject event w Hparse Hretry Htype Hevent).
  rewrite (handleMessage_dispatches Outside env Date_now CloudFront_createInvalidation
             Slack_chat_postMessage event bot_id txt command _ _ Hbot Hfalsy Htext Hcmd).
  unfold Bot.dispatch. rewrite Hinv.
  rewrite (case_invalidate_cdn_resolved Outside env Date_now CloudFront_createInvalidation
             Slack_chat_postMessage event ch invalidationData o _ _ Hcf Hch).
  rewrite sendSlackMessage_logged. fold post. cbn [outside calls].
  rewrite <- app_assoc.
  destruct (fst (Slack_chat_postMessage post o)) as [err|]; [|reflexivity].
  unfold rejection_body. cbn. destruct (stringified err); reflexivity.
Qed.

Lemma number_to_string_inj (n n' : N) :
  number_to_string n = number_to_string n' -> n = n'.
Proof.
  unfold number_to_string. intros H.
  assert (Hnonnil : forall m, N.to_uint m <> Decimal.Nil).
  { intros [|p]; [discriminate | apply DecimalPos.Unsigned.to_uint_nonnil]. }
  apply DecimalN.Unsigned.to_uint_inj.
  pose proof (NilZero.usu (N.to_uint n) (Hnonnil n)) as Hn.
  pose proof (NilZero.usu (N.to_uint n') (Hnonnil n')) as Hn'.
  rewrite H in Hn. rewrite Hn in Hn'. now injection Hn'.
Qed.

(** X12. The parameters of an invalidation depend on the outside only
    through the clock: two invalidations are requested with the same
    CallerReference exactly when the clock reads the same millisecond,
    and then all their parameters are the same; the distribution, the
    quantity and the one path never change. *)
Theorem caller_reference_follows_the_clock (o o' : Outside) :
  (CallerReference (InvalidationBatch (invalidation_params o))
   = CallerReference (InvalidationBatch (invalidation_params o'))
   <-> Date_now o = Date_now o') /\
  (invalidation_params o = invalidation_params o' <-> Date_now o = Date_now o') /\
  DistributionId (invalidation_params o) = CDN_DISTRIBUTION env /\
  Paths (InvalidationBatch (invalidation_params o))
  = {| Quantity := "1"; Items := ["/*"] |}.
Proof.
  unfold Bot.invalidation_params. cbn [CallerReference InvalidationBatch DistributionId Paths].
  split; [|split; [|split; reflexivity]].
  - split; [apply number_to_string_inj | intros ->; reflexivity].
  - split.
    + intros H. injection H as H. exact (number_to_string_inj _ _ H).
    + intros ->. reflexivity.
Qed.

End Coverage.

(** ** More requests for the demo platform *)

Module MoreDemo.
Import Bot Demo.

(** A challenge that carries no token. *)
Definition tokenless_challenge : string * value :=
  (object [member "type" (str "url_verification");
           member "challenge" (str "3eZbrw1aBm2rZgRNFdxV2595E9CY3gmdALWMmHkvFXO7tYXAYM8P")],
   VObj [("type", VStr "url_verification");
         ("challenge", VStr "3eZbrw1aBm2rZgRNFdxV2595E9CY3gmdALWMmHkvFXO7tYXAYM8P")]).

(** An event_callback without its event. *)
Definition eventless_callback : string * value :=
  (object [member "type" (str "event_callback")],
   VObj [("type", VStr "event_callback")]).

(** A mention with the fields Slack adds around the text. *)
Definition full_mention (user tok txt : string) : string * value :=
  (object [member "token" (str tok);
           member "type" (str "event_callback");
           member "event" (object [member "type" (str "app_mention");
                                   member "user" (str user);
                                   member "text" (str txt);
                                   member "channel" (str "C024BE91L")])],
   VObj [("token", VStr tok);
         ("type", VStr "event_callback");
         ("event", VObj [("type", VStr "app_mention"); ("user", VStr user);
                         ("text", VStr txt); ("channel", VStr "C024BE91L")])]).

Definition null_body : string * value := ("null", VNull).
Definition string_body : string * value := (str "hello", VStr "hello").

Definition more_texts : list (string * value) :=
  [ tokenless_challenge; eventless_callback;
    full_mention "U061F7AUR" "s3cret" "@bot invalidate_cdn";
    full_mention "U061F7AUR" "forged" "@bot invalidate_cdn";
    null_body; string_body ].

Definition JSON_parse (s : string) : option value :=
  lookup_text s (more_texts ++ known_texts).

(** An environment in which VERIFICATION_TOKEN is not set. *)
Definition env_without_secret : Env :=
  {| VERIFICATION_TOKEN := None;
     BOT_TOKEN := BOT_TOKEN env;
     BOT_NAME := BOT_NAME env;
     CDN_DISTRIBUTION := CDN_DISTRIBUTION env |}.

(** Slack when it rejects every message, with an error that holds a
    reference to itself, on which [JSON.stringify] throws. *)
Definition channel_not_found : ExternalError := {| stringified := JsonThrows |}.

Definition Slack_rejects (p : PostMessageParams) (o : Outside)
  : option ExternalError * Outside := (Some channel_not_found, o).

Definition run : Request -> World Outside -> completion Response * World Outside :=
  Bot.run Outside JSON_parse env Date_now CloudFront_createInvalidation Slack_chat_postMessage.

End MoreDemo.

(** ** The added properties on the demo platform *)

Section MoreScenarios.

Import Bot Demo.

Local Abbreviation run := MoreDemo.run.


Lemma unrecognised_type_is_a_bad_request_witness :
  run (request plain_headers MoreDemo.string_body) (fresh true)
  = (Normal {| statusCode := 400; body := VStr "Empty request";
               headers := default_headers |}, fresh true).
Proof.
  apply (unrecognised_type_is_a_bad_request Outside MoreDemo.JSON_parse env Date_now
           CloudFront_createInvalidation Slack_chat_postMessage
           (request plain_headers MoreDemo.string_body) (VStr "hello"));
    [reflexivity | reflexivity | right; exact I].
Defined.

Lemma null_body_is_a_server_error_witness :
  run (request plain_headers MoreDemo.null_body) (fresh true)
  = (Normal {| statusCode := 500; body := VStr "{}"; headers := default_headers |},
     fresh true).
Proof.
  apply (null_body_is_a_server_error Outside MoreDemo.JSON_parse env Date_now
           CloudFront_createInvalidation Slack_chat_postMessage);
    reflexivity.
Defined.

Lemma headers_must_be_an_object_witness :
  run (request VNull (challenge_event "s3cret")) (fresh true)
  = (Normal {| statusCode := 500; body := VStr "{}"; headers := default_headers |},
     fresh true).
Proof.
  apply (headers_must_be_an_object Outside MoreDemo.JSON_parse env Date_now
           CloudFront_createInvalidation Slack_chat_postMessage
           (request VNull (challenge_event "s3cret")) (snd (challenge_event "s3cret")));
    [reflexivity | discriminate | discriminate].
Defined.

Lemma missing_event_is_a_server_error_witness :
  run (request plain_headers MoreDemo.eventless_callback) (fresh true)
  = (Normal {| statusCode := 500; body := VStr "{}"; headers := default_headers |},
     fresh true).
Proof.
  apply (missing_event_is_a_server_error Outside MoreDemo.JSON_parse env Date_now
           CloudFront_createInvalidation Slack_chat_postMessage
           (request plain_headers MoreDemo.eventless_callback)
           (snd MoreDemo.eventless_callback) VUndefined);
    [reflexivity | reflexivity | reflexivity | reflexivity | left; reflexivity].
Defined.

Lemma unset_secret_accepts_the_missing_token_witness :
  let data := request plain_headers MoreDemo.tokenless_challenge in
  exists challenge,
    get (snd MoreDemo.tokenless_challenge) "challenge" = Normal challenge /\
    Bot.run Outside MoreDemo.JSON_parse MoreDemo.env_without_secret Date_now
      CloudFront_createInvalidation Slack_chat_postMessage data (fresh true)
    = (Normal {| statusCode := 200; body := challenge; headers := default_headers |},
       fresh true).
Proof.
  intros data.
  apply (unset_secret_accepts_the_missing_token Outside MoreDemo.JSON_parse
           MoreDemo.env_without_secret Date_now
           CloudFront_createInvalidation Slack_chat_postMessage
           data (snd MoreDemo.tokenless_challenge) VUndefined (fresh true));
    reflexivity.
Defined.

Lemma event_callback_is_not_verified_witness :
  let data := request plain_headers
                (MoreDemo.full_mention "U061F7AUR" "s3cret" "@bot invalidate_cdn") in
  let forged := request plain_headers
                  (MoreDemo.full_mention "U061F7AUR" "forged" "@bot invalidate_cdn") in
  Bot.run Outside MoreDemo.JSON_parse MoreDemo.env_without_secret Date_now
    CloudFront_createInvalidation Slack_chat_postMessage data (fresh true)
  = run data (fresh true) /\
  run forged (fresh true) = run data (fresh true).
Proof.
  intros data forged.
  destruct (event_callback_is_not_verified Outside MoreDemo.JSON_parse env Date_now
              CloudFront_createInvalidation Slack_chat_postMessage
              data (snd (MoreDemo.full_mention "U061F7AUR" "s3cret" "@bot invalidate_cdn"))
              (fresh true) eq_refl eq_refl) as [Hsecret Htoken].
  split.
  - exact (Hsecret None).
  - apply (Htoken forged
             (snd (MoreDemo.full_mention "U061F7AUR" "forged" "@bot invalidate_cdn")));
      reflexivity.
Defined.

Lemma handleMessage_reads_three_properties_witness :
  let m := VObj [("type", VStr "app_mention"); ("user", VStr "U061F7AUR");
                 ("text", VStr "@bot invalidate_cdn"); ("channel", VStr "C024BE91L")] in
  let m' := VObj [("user", VStr "U0LAN0Z89"); ("text", VStr "@bot invalidate_cdn");
                  ("channel", VStr "C024BE91L"); ("ts", VStr "1515449522.000016")] in
  Bot.handleMessage Outside env Date_now CloudFront_createInvalidation
    Slack_chat_postMessage m default_response (fresh true)
  = Bot.handleMessage Outside env Date_now CloudFront_createInvalidation
      Slack_chat_postMessage m' default_response (fresh true).
Proof.
  intros m m'.
  apply (handleMessage_reads_three_properties Outside env Date_now
           CloudFront_createInvalidation Slack_chat_postMessage m m');
    reflexivity.
Defined.

Lemma notice_decides_the_response_witness :
  let data := request plain_headers
                (MoreDemo.full_mention "U061F7AUR" "s3cret" "@bot invalidate_cdn") in
  let event := VObj [("type", VStr "app_mention"); ("user", VStr "U061F7AUR");
                     ("text", VStr "@bot invalidate_cdn"); ("channel", VStr "C024BE91L")] in
  let params := Bot.invalidation_params Outside env Date_now (outside (fresh true)) in
  exists ch,
    get event "channel" = Normal ch /\
    let post := {| token := BOT_TOKEN env; channel := ch;
                   text := invalidated_text
                             {| Invalidation := {| Id := "I2J0I21PCUYOIK" |} |} |} in
    Bot.run Outside MoreDemo.JSON_parse env Date_now CloudFront_createInvalidation
      MoreDemo.Slack_rejects data (fresh true)
    = (Normal {| statusCode := 500; body := VObj []; headers := default_headers |},
       {| outside := outside (fresh true);
          calls := [CreateInvalidation params; PostMessage post] |}).
Proof.
  intros data event params.
  exact (notice_decides_the_response Outside MoreDemo.JSON_parse env Date_now
           CloudFront_createInvalidation MoreDemo.Slack_rejects
           data (snd (MoreDemo.full_mention "U061F7AUR" "s3cret" "@bot invalidate_cdn"))
           event VUndefined (VStr "@bot invalidate_cdn") (VStr "invalidate_cdn")
           {| Invalidation := {| Id := "I2J0I21PCUYOIK" |} |}
           (outside (fresh true)) (fresh true)
           eq_refl eq_refl eq_refl eq_refl eq_refl eq_refl eq_refl eq_refl eq_refl eq_refl).
Defined.

Lemma run_rejects_only_malformed_bodies_witness :
  let data := {| data_body := "{"; data_headers := plain_headers |} in
  SyntaxError = SyntaxError /\ snd (run data (fresh true)) = fresh true.
Proof.
  intros data.
  destruct (run_rejects_only_malformed_bodies Outside MoreDemo.JSON_parse env Date_now
              CloudFront_createInvalidation Slack_chat_postMessage data (fresh true))
    as [_ Honly].
  apply (Honly SyntaxError). reflexivity.
Defined.

Lemma parseMessage_command_iff_witness :
  parseMessage (VStr " invalidate_cdn now") = Normal (VStr "invalidate_cdn").
Proof.
  apply (parseMessage_command_iff " invalidate_cdn now" "invalidate_cdn").
  split; [reflexivity|]. right. exists "". split; [reflexivity|].
  right. exists "now". reflexivity.
Defined.

Lemma parseMessage_total_on_strings_witness :
  parseMessage (VObj [("split", VStr "me")]) = Throw TypeError /\
  exists cmd,
    parseMessage (VStr "") = Normal (VStr cmd) /\
    has_char " " cmd = false /\ occurs_in cmd "".
Proof.
  destruct parseMessage_total_on_strings as (Hthrows & _ & Hstrings).
  split.
  - apply Hthrows. intros s. discriminate.
  - exact (Hstrings "").
Defined.

End MoreScenarios.

(** The help message refused by Slack with an error that cannot be
    stringified: the status is 500 and the body is still the empty
    object. *)
Example refused_help_keeps_the_empty_body :
  Bot.run Demo.Outside MoreDemo.JSON_parse Demo.env Demo.Date_now
    Demo.CloudFront_createInvalidation MoreDemo.Slack_rejects
    (Demo.request Demo.plain_headers (Demo.mention_event "@bot foobar")) (Demo.fresh true)
  = (Normal {| Bot.statusCode := 500; Bot.body := VObj [];
               Bot.headers := Bot.default_headers |},
     {| Bot.outside := Bot.outside (Demo.fresh true);
        Bot.calls := [Bot.PostMessage
                        {| Bot.token := Bot.BOT_TOKEN Demo.env;
                           Bot.channel := VStr "C024BE91L";
                           Bot.text := Bot.help_text Demo.env |}] |}).
Proof. reflexivity. Qed.
